(** * Bogue Chitto crest analysis: a shallow embedding of [main.py]

    The script reads a table of historic crests, fetches for each crest a
    window of gage heights, resamples it to hourly means, takes the rate
    of rise at the first hour at or above a reference stage, and fits a
    line through the (rate, crest height) pairs.

    Modelling choices.
    - Python floats are modelled by exact rationals [Q]; a float NaN, a
      pandas NaN/None/NaT cell is [None].  Rounding and infinities are not
      modelled.
    - Texts are strings of bytes, and the two patterns are modelled on
      ASCII text: a digit is one of 0-9.  Python's [\d] and [float] also
      accept the decimal digits of other scripts; the properties that say
      which characters a pattern matches are stated for ASCII texts.
    - Python exceptions are the constructors of [exn]; code that can raise
      returns a [result].
    - The network and the standard output are an explicit trace of
      [effect]s threaded through the main loop.
    - The regression ([scipy.stats.linregress]) is modelled over the real
      numbers, since its correlation coefficient needs a square root; a
      result that is not a number (nan) is [None].  What differs between
      releases of the library (the correlation reported when a variance
      is 0, the checks that reject the columns) is a parameter. *)

From Stdlib Require Import ZArith QArith List Bool Ascii String Lia Lqa.
From Stdlib Require Import Reals Lra Psatz.
Import ListNotations.

Local Open Scope Z_scope.

(** ** Exceptions and fallible computations *)

Inductive exn : Type :=
| ValueError
| KeyError
| IndexError
| TypeError
| AttributeError
| HTTPError
| JSONDecodeError
| RequestException.

Inductive result (A : Type) : Type :=
| Ok (a : A)
| Raise (e : exn).

Arguments Ok {A} a.
Arguments Raise {A} e.

Definition bind {A B : Type} (r : result A) (k : A -> result B) : result B :=
  match r with
  | Ok a => k a
  | Raise e => Raise e
  end.

Notation "x <- r ;; k" := (bind r (fun x => k))
  (at level 61, r at next level, right associativity).

(** [Series.apply f]: the function is applied row by row, and the first
    exception aborts the whole call. *)
Fixpoint apply {A B : Type} (f : A -> result B) (col : list A)
  : result (list B) :=
  match col with
  | [] => Ok []
  | a :: col' =>
      b <- f a ;;
      bs <- apply f col' ;;
      Ok (b :: bs)
  end.

(** ** Characters, tokens and the two regular expressions *)

Module Regex.

(** [\d] on ASCII text. *)
Definition is_digit (c : ascii) : bool :=
  let n := nat_of_ascii c in
  (Nat.leb 48 n && Nat.leb n 57)%bool.

(** The character class [[\d\.]]. *)
Definition is_num_char (c : ascii) : bool :=
  (is_digit c || Ascii.eqb c ".")%bool.

(** The longest prefix of [s] whose characters satisfy [p]. *)
Fixpoint take_while (p : ascii -> bool) (s : string) : string :=
  match s with
  | EmptyString => EmptyString
  | String c s' => if p c then String c (take_while p s') else EmptyString
  end.

Fixpoint drop_while (p : ascii -> bool) (s : string) : string :=
  match s with
  | EmptyString => EmptyString
  | String c s' => if p c then drop_while p s' else s
  end.

Fixpoint all_chars (p : ascii -> bool) (s : string) : bool :=
  match s with
  | EmptyString => true
  | String c s' => (p c && all_chars p s')%bool
  end.

(** [re.search(r"[\d\.]+", s)]: the leftmost, longest run of digits and
    dots; [None] when [s] has no such character. *)
Fixpoint search_number (s : string) : option string :=
  match s with
  | EmptyString => None
  | String c s' =>
      if is_num_char c then Some (String c (take_while is_num_char s'))
      else search_number s'
  end.

(** [\d{2}-\d{2}-\d{4}] matched at the start of [s]. *)
Definition match_date_here (s : string) : option string :=
  match s with
  | String m1 (String m2 (String s1 (String d1 (String d2 (String s2
      (String y1 (String y2 (String y3 (String y4 _))))))))) =>
      if (is_digit m1 && is_digit m2 && Ascii.eqb s1 "-"
          && is_digit d1 && is_digit d2 && Ascii.eqb s2 "-"
          && is_digit y1 && is_digit y2 && is_digit y3 && is_digit y4)%bool
      then Some (String m1 (String m2 (String s1 (String d1 (String d2
             (String s2 (String y1 (String y2 (String y3 (String y4
              EmptyString))))))))))
      else None
  | _ => None
  end.

(** [re.search(r"\d{2}-\d{2}-\d{4}", s)]: the leftmost match. *)
Fixpoint search_date (s : string) : option string :=
  match match_date_here s with
  | Some m => Some m
  | None =>
      match s with
      | EmptyString => None
      | String _ s' => search_date s'
      end
  end.

End Regex.

(** ** Numbers written in decimal *)

Module Decimal.

Definition digit_value (c : ascii) : Z := Z.of_nat (nat_of_ascii c) - 48.

(** The value of a string of digits, most significant first. *)
Fixpoint digits_value_from (acc : Z) (s : string) : Z :=
  match s with
  | EmptyString => acc
  | String c s' => digits_value_from (10 * acc + digit_value c) s'
  end.

Definition digits_value (s : string) : Z := digits_value_from 0 s.

Definition is_empty (s : string) : bool :=
  match s with
  | EmptyString => true
  | _ => false
  end.

(** Python's [float(tok)] on the tokens the height pattern can produce,
    that is on strings of digits and dots: [ddd], [ddd.], [.ddd] and
    [ddd.ddd] are numbers; a token without a digit or with a second dot
    is a [ValueError].  The value is the exact decimal. *)
Definition python_float (tok : string) : result Q :=
  let ip := Regex.take_while Regex.is_digit tok in
  match Regex.drop_while Regex.is_digit tok with
  | EmptyString =>
      if is_empty ip then Raise ValueError
      else Ok (inject_Z (digits_value ip))
  | String c fp =>
      if (Ascii.eqb c "." && Regex.all_chars Regex.is_digit fp
          && negb (is_empty ip && is_empty fp))%bool
      then Ok (Qmake (digits_value (ip ++ fp))
                     (Z.to_pos (10 ^ Z.of_nat (String.length fp))))
      else Raise ValueError
  end.

End Decimal.

(** ** Calendar dates *)

Record date : Type := mkDate { year : Z; month : Z; day : Z }.

Module Calendar.

Definition is_leap (y : Z) : bool :=
  ((y mod 4 =? 0) && (negb (y mod 100 =? 0) || (y mod 400 =? 0)))%bool.

Definition days_in_month (y m : Z) : Z :=
  if m =? 2 then (if is_leap y then 29 else 28)
  else if (m =? 4) || (m =? 6) || (m =? 9) || (m =? 11) then 30
  else 31.

Definition valid (d : date) : bool :=
  ((1 <=? year d) && (year d <=? 9999)
   && (1 <=? month d) && (month d <=? 12)
   && (1 <=? day d) && (day d <=? days_in_month (year d) (month d)))%bool.

(** Days since 1970-01-01 of a date of the proleptic Gregorian
    calendar, and back. *)
Definition to_days (d : date) : Z :=
  let y := if month d <=? 2 then year d - 1 else year d in
  let era := y / 400 in
  let yoe := y - era * 400 in
  let mp := (month d + 9) mod 12 in
  let doy := (153 * mp + 2) / 5 + day d - 1 in
  let doe := yoe * 365 + yoe / 4 - yoe / 100 + doy in
  era * 146097 + doe - 719468.

Definition of_days (n : Z) : date :=
  let z := n + 719468 in
  let era := z / 146097 in
  let doe := z - era * 146097 in
  let yoe := (doe - doe / 1460 + doe / 36524 - doe / 146096) / 365 in
  let doy := doe - (365 * yoe + yoe / 4 - yoe / 100) in
  let mp := (5 * doy + 2) / 153 in
  let d := doy - (153 * mp + 2) / 5 + 1 in
  let m := if mp <? 10 then mp + 3 else mp - 9 in
  let y := yoe + era * 400 in
  mkDate (if m <=? 2 then y + 1 else y) m d.

(** [d + timedelta(days=n)]. *)
Definition add_days (d : date) (n : Z) : date := of_days (to_days d + n).

(** The days pandas can represent at midnight with its nanosecond
    timestamps, in days since 1970-01-01: from 1677-09-22 to
    2262-04-11. *)
Definition TIMESTAMP_MIN_DAY : Z := -106751.
Definition TIMESTAMP_MAX_DAY : Z := 106751.

Definition in_timestamp_range (d : date) : bool :=
  ((TIMESTAMP_MIN_DAY <=? to_days d) && (to_days d <=? TIMESTAMP_MAX_DAY))%bool.

End Calendar.

(** ** The crest table and its parser ([parse_crest_csv]) *)

(** One row of the table as [pd.read_csv] delivers it: four positional
    columns; a cell is the text [str] gives for it, or [None] for a
    missing cell (NaN). *)
Record csv_row : Type := mkRow {
  rank : option string;
  height_str : option string;
  date_str : option string;
  empty : option string
}.

(** A row of the data frame after the two derived columns are added.  A
    derived cell is [None] when the extraction returned [None]. *)
Record crest_row : Type := mkCrest {
  source : csv_row;
  crest_height : option Q;
  crest_date : option date
}.

(** [extract_height]: [None] for a missing cell or a text without a digit
    or dot; otherwise [float] of the first run of digits and dots. *)
Definition extract_height (text : option string) : result (option Q) :=
  match text with
  | None => Ok None
  | Some s =>
      match Regex.search_number s with
      | Some tok => h <- Decimal.python_float tok ;; Ok (Some h)
      | None => Ok None
      end
  end.

(** [pd.to_datetime(tok, format="%m-%d-%Y")] on a token of the shape
    dd-dd-dddd: the calendar date; a [ValueError] when the numbers are no
    date of the calendar, and when the date is outside the range of
    pandas timestamps (an [OutOfBoundsDatetime], which is a
    [ValueError]). *)
Definition to_datetime (tok : string) : result date :=
  let d := mkDate (Decimal.digits_value (substring 6 4 tok))
                  (Decimal.digits_value (substring 0 2 tok))
                  (Decimal.digits_value (substring 3 2 tok)) in
  if (Calendar.valid d && Calendar.in_timestamp_range d)%bool
  then Ok d else Raise ValueError.

(** [extract_date]: [None] for a missing cell or a text without the
    pattern; otherwise the date the first match denotes. *)
Definition extract_date (text : option string) : result (option date) :=
  match text with
  | None => Ok None
  | Some s =>
      match Regex.search_date s with
      | None => Ok None
      | Some tok => d <- to_datetime tok ;; Ok (Some d)
      end
  end.

Definition not_null {A : Type} (cell : option A) : bool :=
  match cell with
  | Some _ => true
  | None => false
  end.

(** [df.dropna(subset=["crest_height", "crest_date"])]. *)
Definition dropna (df : list crest_row) : list crest_row :=
  filter (fun r => (not_null (crest_height r) && not_null (crest_date r))%bool) df.

Fixpoint zip_columns (df : list csv_row) (hs : list (option Q))
  (ds : list (option date)) : list crest_row :=
  match df, hs, ds with
  | r :: df', h :: hs', d :: ds' => mkCrest r h d :: zip_columns df' hs' ds'
  | _, _, _ => []
  end.

(** [parse_crest_csv], from the rows read to the frame returned.  The
    height column is computed for all rows before the date column, as the
    two [apply] calls do. *)
Definition parse_crest_csv (df : list csv_row) : result (list crest_row) :=
  hs <- apply extract_height (map height_str df) ;;
  ds <- apply extract_date (map date_str df) ;;
  Ok (dropna (zip_columns df hs ds)).

(** ** Configuration *)

Definition STATION_ID : string := "02490500".
Definition REFERENCE_STAGE : Q := 15.
Definition MIN_IV_YEAR : Z := 1990.

(** ** JSON values and Python's operations on them *)

#[warnings="-register-all"]
Inductive json : Type :=
| JNull
| JBool (b : bool)
| JNumber (q : Q)
| JString (s : string)
| JArray (items : list json)
| JObject (fields : list (string * json)).

Module Py.

Fixpoint lookup (key : string) (fields : list (string * json)) : option json :=
  match fields with
  | [] => None
  | (k, v) :: fields' => if String.eqb k key then Some v else lookup key fields'
  end.

(** [d.get(key, default)]: only a dict has the method. *)
Definition get (d : json) (key : string) (default : json) : result json :=
  match d with
  | JObject fields =>
      match lookup key fields with
      | Some v => Ok v
      | None => Ok default
      end
  | _ => Raise AttributeError
  end.

(** The truth value of a decoded JSON value. *)
Definition truthy (j : json) : bool :=
  match j with
  | JNull => false
  | JBool b => b
  | JNumber q => negb (Qeq_bool q 0)
  | JString s => negb (Decimal.is_empty s)
  | JArray items => match items with [] => false | _ => true end
  | JObject fields => match fields with [] => false | _ => true end
  end.

(** [j[0]]. *)
Definition first_item (j : json) : result json :=
  match j with
  | JArray (x :: _) => Ok x
  | JArray [] => Raise IndexError
  | JString (String c _) => Ok (JString (String c EmptyString))
  | JString EmptyString => Raise IndexError
  | JObject _ => Raise KeyError
  | _ => Raise TypeError
  end.

(** [j[key]] for a string key. *)
Definition item (j : json) (key : string) : result json :=
  match j with
  | JObject fields =>
      match lookup key fields with
      | Some v => Ok v
      | None => Raise KeyError
      end
  | _ => Raise TypeError
  end.

End Py.

(** ** Effects: the requests sent and the lines printed *)

Inductive log_line : Type :=
| TotalEntries (n : nat)
| FetchingBanner
| ProcessingCrest (d : date) (h : Q)
| NoDataSkipping
| NeverReachedSkipping
| NonPositiveRateSkipping
| ValidEvent (rate : Q)
| ErrorFetching (e : exn)
| Tally (valid skipped : Z)
| NothingToDo
| AnalysisResults.

Inductive effect : Type :=
| Print (line : log_line)
| Get (url : string)
| Linregress (x y : list Q)
| ShowPlot.

(** A computation reads and extends the trace of effects so far and
    either returns or raises. *)
Definition io (A : Type) : Type := list effect -> result A * list effect.

Definition ret {A : Type} (a : A) : io A := fun tr => (Ok a, tr).

Definition raise {A : Type} (e : exn) : io A := fun tr => (Raise e, tr).

Definition lift {A : Type} (r : result A) : io A := fun tr => (r, tr).

Definition emit (e : effect) : io unit := fun tr => (Ok tt, tr ++ [e]).

Definition io_bind {A B : Type} (m : io A) (k : A -> io B) : io B :=
  fun tr =>
    match m tr with
    | (Ok a, tr') => k a tr'
    | (Raise e, tr') => (Raise e, tr')
    end.

(** [try: body except Exception as e: handler(e)]. *)
Definition try_except {A : Type} (body : io A) (handler : exn -> io A) : io A :=
  fun tr =>
    match body tr with
    | (Ok a, tr') => (Ok a, tr')
    | (Raise e, tr') => handler e tr'
    end.

Notation "x <-- m ;; k" := (io_bind m (fun x => k))
  (at level 61, m at next level, right associativity).
Notation "m ;;; k" := (io_bind m (fun _ => k))
  (at level 61, right associativity).

Definition is_get (e : effect) : bool :=
  match e with
  | Get _ => true
  | _ => false
  end.

(** The number of requests sent so far. *)
Definition requests_sent (tr : list effect) : nat := List.length (filter is_get tr).

(** ** The time series of one event *)

(** The frame [fetch_usgs_iv] returns: rows of (instant in seconds,
    gage height), rows without a value already dropped. *)
Definition event_df : Type := list (Z * Q).

Record response : Type := mkResponse {
  status_code : Z;
  (** the decoded body; [None] when the body is not JSON *)
  body : option json
}.

(** [strftime("%Y-%m-%d")]. *)
Module Format.

Definition digit_char (n : Z) : ascii := ascii_of_nat (Z.to_nat (48 + n mod 10)).

Fixpoint zero_padded (width : nat) (n : Z) : string :=
  match width with
  | O => EmptyString
  | S w => (zero_padded w (n / 10) ++ String (digit_char n) EmptyString)%string
  end.

Definition iso_date (d : date) : string :=
  (zero_padded 4 (year d) ++ "-" ++ zero_padded 2 (month d) ++ "-"
   ++ zero_padded 2 (day d))%string.

End Format.

Definition iv_url (station_id start_dt end_dt : string) : string :=
  ("https://nwis.waterservices.usgs.gov/nwis/iv/"
   ++ "?site=" ++ station_id
   ++ "&startDT=" ++ start_dt
   ++ "&endDT=" ++ end_dt
   ++ "&parameterCd=00065"
   ++ "&format=json")%string.

(** ** Hourly resampling and the rate of rise *)

Local Open Scope Q_scope.

(** One row of [hourly_df]: the start of the hour (the index label, in
    seconds), the mean gage height of the hour (absent for an hour
    without observation) and its first difference. *)
Record hourly_row : Type := mkHourly {
  bucket : Z;
  value : option Q;
  rate_of_rise : option Q
}.

Module Hourly.

(** The start of the hour an instant falls in. *)
Definition floor_hour (t : Z) : Z := (3600 * (t / 3600))%Z.

Definition sum (vs : list Q) : Q := fold_right Qplus 0 vs.

(** The arithmetic mean; without value for an empty bucket. *)
Definition mean (vs : list Q) : option Q :=
  match vs with
  | [] => None
  | _ => Some (sum vs / inject_Z (Z.of_nat (List.length vs)))
  end.

Definition in_bucket (b : Z) (row : Z * Q) : bool := (floor_hour (fst row) =? b)%Z.

Definition bucket_values (df : event_df) (b : Z) : list Q :=
  map snd (filter (in_bucket b) df).

Definition minimum (x : Z) (xs : list Z) : Z := fold_left Z.min xs x.
Definition maximum (x : Z) (xs : list Z) : Z := fold_left Z.max xs x.

(** The labels of [resample("1H")]: every hour from the hour of the
    earliest row to the hour of the latest row. *)
Definition labels (df : event_df) : list Z :=
  match map (fun row => floor_hour (fst row)) df with
  | [] => []
  | h :: hs =>
      let lo := minimum h hs in
      let hi := maximum h hs in
      map (fun k => (lo + 3600 * Z.of_nat k)%Z)
          (seq 0 (S (Z.to_nat ((hi - lo) / 3600))))
  end.

(** [event_df.resample("1H").mean()]: label and mean of each hour. *)
Definition resample_mean (df : event_df) : list (Z * option Q) :=
  map (fun b => (b, mean (bucket_values df b))) (labels df).

Definition minus (v prev : option Q) : option Q :=
  match v, prev with
  | Some a, Some b => Some (a - b)
  | _, _ => None
  end.

(** [Series.diff()]: each value minus the one before it; absent for the
    first row and whenever one of the two is absent. *)
Fixpoint diff_from (prev : option Q) (col : list (option Q)) : list (option Q) :=
  match col with
  | [] => []
  | v :: col' => minus v prev :: diff_from v col'
  end.

Definition diff (col : list (option Q)) : list (option Q) := diff_from None col.

Definition with_rate (row : Z * option Q) (rate : option Q) : hourly_row :=
  mkHourly (fst row) (snd row) rate.

Fixpoint zip_with {A B C : Type} (f : A -> B -> C) (xs : list A) (ys : list B)
  : list C :=
  match xs, ys with
  | x :: xs', y :: ys' => f x y :: zip_with f xs' ys'
  | _, _ => []
  end.

(** [hourly_df] with its [rate_of_rise] column. *)
Definition hourly (df : event_df) : list hourly_row :=
  let means := resample_mean df in
  zip_with with_rate means (diff (map snd means)).

(** [value >= REFERENCE_STAGE]; false for an absent value. *)
Definition reaches_stage (v : option Q) : bool :=
  match v with
  | Some q => Qle_bool REFERENCE_STAGE q
  | None => false
  end.

(** [Index.min()]: the least label, or none (NaT) for an empty index. *)
Definition index_min (idx : list Z) : option Z :=
  match idx with
  | [] => None
  | i :: idx' => Some (minimum i idx')
  end.

(** [hourly_df[hourly_df["value"] >= REFERENCE_STAGE].index.min()]. *)
Definition crossed_idx (hourly_df : list hourly_row) : option Z :=
  index_min (map bucket (filter (fun r => reaches_stage (value r)) hourly_df)).

(** [hourly_df.loc[label, "rate_of_rise"]]. *)
Definition loc_rate (hourly_df : list hourly_row) (label : Z)
  : result (option Q) :=
  match find (fun r => (bucket r =? label)%Z) hourly_df with
  | Some r => Ok (rate_of_rise r)
  | None => Raise KeyError
  end.

End Hourly.

(** ** The events kept and the state of the main loop *)

(** One entry of [results]. *)
Record event_feature : Type := mkFeature {
  event_date : date;
  event_height : Q;
  rate_of_rise_per_hr : Q;
  cross_time : Z
}.

Record loop_state : Type := mkState {
  results : list event_feature;
  valid_event_count : Z;
  skipped_event_count : Z
}.

Definition initial_state : loop_state := mkState [] 0 0.

(** [skipped_event_count += 1]. *)
Definition skip (st : loop_state) : loop_state :=
  mkState (results st) (valid_event_count st) (skipped_event_count st + 1).

(** [results.append(f)] followed by [valid_event_count += 1]. *)
Definition keep (st : loop_state) (f : event_feature) : loop_state :=
  mkState (results st ++ [f]) (valid_event_count st + 1) (skipped_event_count st).

(** [df.iterrows()], read through the two columns the loop uses.  The
    frame [parse_crest_csv] returns has no row with an absent cell
    (see [iterrows_dropna]). *)
Definition iterrows (df : list crest_row) : list (date * Q) :=
  flat_map (fun r =>
              match crest_date r, crest_height r with
              | Some d, Some h => [(d, h)]
              | _, _ => []
              end) df.

(** What the [try] statement does with the frame fetched for one crest.
    The rate test is [pd.isna(rate) or rate <= 0]. *)
Definition process_event (st : loop_state) (d : date) (h : Q)
  (event : event_df) : io loop_state :=
  match event with
  | [] => emit (Print NoDataSkipping) ;;; ret (skip st)
  | _ =>
      let hourly_df := Hourly.hourly event in
      match Hourly.crossed_idx hourly_df with
      | None => emit (Print NeverReachedSkipping) ;;; ret (skip st)
      | Some crossed =>
          rate <-- lift (Hourly.loc_rate hourly_df crossed) ;;
          match rate with
          | None => emit (Print NonPositiveRateSkipping) ;;; ret (skip st)
          | Some r =>
              if Qle_bool r 0
              then emit (Print NonPositiveRateSkipping) ;;; ret (skip st)
              else emit (Print (ValidEvent r)) ;;;
                   ret (keep st (mkFeature d h r crossed))
          end
      end
  end.

Section Pipeline.

(** The observation service: the outcome of [requests.get] for a URL,
    given the number of requests sent before it. *)
Variable requests_get : nat -> string -> result response.

(** The pandas steps that turn the list of observations of the body
    into the frame (construction, [to_numeric], [to_datetime],
    [set_index], [dropna]); they may raise. *)
Variable data_frame : json -> result event_df.

(** What [linregress] checks on its two columns before it fits them;
    newer releases of scipy raise a [ValueError] when all values of the
    first column are identical. *)
Variable linregress_check : list Q -> list Q -> result unit.

Definition http_get (url : string) : io response :=
  fun tr => (requests_get (requests_sent tr) url, tr ++ [Get url]).

(** [Response.raise_for_status()]: an [HTTPError] for a 4xx or 5xx
    status. *)
Definition raise_for_status (r : response) : result unit :=
  if ((400 <=? status_code r) && (status_code r <? 600))%Z
  then Raise HTTPError else Ok tt.

(** [Response.json()]. *)
Definition response_json (r : response) : result json :=
  match body r with
  | Some j => Ok j
  | None => Raise JSONDecodeError
  end.

(** What [fetch_usgs_iv] does with the response. *)
Definition read_response (r : response) : result event_df :=
  ok <- raise_for_status r ;;
  data <- response_json r ;;
  v <- Py.get data "value" (JObject []) ;;
  ts_list <- Py.get v "timeSeries" (JArray []) ;;
  if negb (Py.truthy ts_list) then Ok []
  else
    series <- Py.first_item ts_list ;;
    blocks <- Py.item series "values" ;;
    block <- Py.first_item blocks ;;
    ts_data <- Py.item block "value" ;;
    data_frame ts_data.

Definition fetch_usgs_iv (station_id start_dt end_dt : string) : io event_df :=
  r <-- http_get (iv_url station_id start_dt end_dt) ;;
  lift (read_response r).

(** The body of the [try] statement. *)
Definition try_body (st : loop_state) (d : date) (h : Q)
  (start_dt end_dt : string) : io loop_state :=
  event <-- fetch_usgs_iv STATION_ID start_dt end_dt ;;
  process_event st d h event.

(** [except Exception as e]. *)
Definition handler (st : loop_state) (e : exn) : io loop_state :=
  emit (Print (ErrorFetching e)) ;;; ret (skip st).

(** One turn of the [for] loop.  The window is computed on calendar
    dates; an overflow of the timestamp range by the two [timedelta]s is
    not modelled. *)
Definition iteration (st : loop_state) (row : date * Q) : io loop_state :=
  let (d, h) := row in
  if (year d <? MIN_IV_YEAR)%Z then ret (skip st)
  else
    emit (Print (ProcessingCrest d h)) ;;;
    let start_dt := Format.iso_date (Calendar.add_days d (-4)) in
    let end_dt := Format.iso_date (Calendar.add_days d 1) in
    try_except (try_body st d h start_dt end_dt) (handler st).

Fixpoint main_loop (rows : list (date * Q)) (st : loop_state) : io loop_state :=
  match rows with
  | [] => ret st
  | row :: rows' => st' <-- iteration st row ;; main_loop rows' st'
  end.

(** The part of [main] after the loop. *)
Definition report (st : loop_state) : io unit :=
  emit (Print (Tally (valid_event_count st) (skipped_event_count st))) ;;;
  match results st with
  | [] => emit (Print NothingToDo)
  | _ =>
      emit (Linregress (map rate_of_rise_per_hr (results st))
                       (map event_height (results st))) ;;;
      ok <-- lift (linregress_check (map rate_of_rise_per_hr (results st))
                                    (map event_height (results st))) ;;
      emit (Print AnalysisResults) ;;;
      emit ShowPlot
  end.

Definition main (table : list csv_row) : io unit :=
  df <-- lift (parse_crest_csv table) ;;
  emit (Print (TotalEntries (List.length df))) ;;;
  emit (Print FetchingBanner) ;;;
  st <-- main_loop (iterrows df) initial_state ;;
  report st.

End Pipeline.

(** ** The regression

    [scipy.stats.linregress] by its closed formulas, over the reals: the
    biased covariances of the two columns, the slope and intercept of
    ordinary least squares, and the correlation coefficient, clamped to
    [-1, 1].  A result that is not a number is [None]: the slope and the
    intercept when the variance of [x] is 0 (a division of 0 by 0, or in
    newer releases an exception).  When one of the two variances is 0
    the correlation is [flat], what the release at hand reports there:
    0.0 in older releases, nan in newer ones.  The p-value and the
    standard error are not modelled. *)

Module Regression.

Local Open Scope R_scope.

Definition total (l : list R) : R := fold_right Rplus 0 l.

Definition mean (l : list R) : R := total l / INR (List.length l).










(** The two columns [main] passes to [linregress]. *)
Definition columns (rs : list event_feature) : list R * list R :=
  (map (fun f => Q2R (rate_of_rise_per_hr f)) rs,
   map (fun f => Q2R (event_height f)) rs).

End Regression.

(** ** A concrete service for the examples

    A frame builder for observations of the documented shape (objects
    with a ["value"] text and a ["dateTime"] text such as
    [2020-03-01T10:00:00.000-06:00]), and a few canned responses. *)

Module Service.

(** [pd.to_numeric(text, errors="coerce")] on an unsigned decimal. *)
Definition to_numeric (j : json) : option Q :=
  match j with
  | JString s =>
      match Decimal.python_float s with
      | Ok q => Some q
      | Raise _ => None
      end
  | JNumber q => Some q
  | _ => None
  end.

(** The number written in [n] digits from position [i] of [s]. *)
Definition field (s : string) (i n : nat) : Z :=
  Decimal.digits_value (substring i n s).

(** The instant of a timestamp with a numeric offset, in seconds since
    the epoch. *)
Definition parse_instant (s : string) : result Z :=
  if Nat.eqb (String.length s) 29 then
    let d := mkDate (field s 0 4) (field s 5 2) (field s 8 2) in
    let wall := (Calendar.to_days d * 86400 + field s 11 2 * 3600
                 + field s 14 2 * 60 + field s 17 2)%Z in
    let offset := (field s 24 2 * 3600 + field s 27 2 * 60)%Z in
    if String.eqb (substring 23 1 s) "-" then Ok (wall + offset)%Z
    else Ok (wall - offset)%Z
  else Raise ValueError.

Definition observation (j : json) : result (option (Z * Q)) :=
  match j with
  | JObject fields =>
      match Py.lookup "dateTime" fields with
      | Some (JString s) =>
          t <- parse_instant s ;;
          match Py.lookup "value" fields with
          | Some v =>
              match to_numeric v with
              | Some q => Ok (Some (t, q))
              | None => Ok None
              end
          | None => Raise KeyError
          end
      | _ => Raise KeyError
      end
  | _ => Raise ValueError
  end.

Fixpoint present {A : Type} (l : list (option A)) : list A :=
  match l with
  | [] => []
  | Some a :: l' => a :: present l'
  | None :: l' => present l'
  end.

Definition data_frame (ts_data : json) : result event_df :=
  match ts_data with
  | JArray (first :: others) =>
      rows <- apply observation (first :: others) ;;
      Ok (present rows)
  | _ => Raise KeyError
  end.

Definition reading (date_time value : string) : json :=
  JObject [("value"%string, JString value); ("dateTime"%string, JString date_time)].

Definition body_of (ts_data : json) : json :=
  JObject [("value"%string,
            JObject [("timeSeries"%string,
                      JArray [JObject [("values"%string,
                                        JArray [JObject [("value"%string, ts_data)]])]])])].

(** A rising limb that reaches 15.0 ft at 10:00, 0.8 ft above the hour
    before. *)
Definition rising : json :=
  body_of (JArray [reading "2020-03-01T08:00:00.000-06:00" "13.4";
                   reading "2020-03-01T08:30:00.000-06:00" "13.8";
                   reading "2020-03-01T09:00:00.000-06:00" "14.2";
                   reading "2020-03-01T10:00:00.000-06:00" "15.0";
                   reading "2020-03-01T11:00:00.000-06:00" "15.8"]).

(** A window that begins above 15.0 ft: the crossing is its first hour,
    which has no rate of rise. *)
Definition already_high : json :=
  body_of (JArray [reading "2020-03-01T08:00:00.000-06:00" "15.6";
                   reading "2020-03-01T09:00:00.000-06:00" "15.9"]).

(** A body with no time series. *)
Definition no_series : json :=
  JObject [("value"%string, JObject [("timeSeries"%string, JArray [])])].

(** A JSON body whose first time series has no ["values"] entry. *)
Definition bare_series : json :=
  JObject [("value"%string, JObject [("timeSeries"%string, JArray [JObject []])])].

(** The check of recent releases of scipy: two or more points whose
    abscissas are all equal are a [ValueError]. *)
Definition rejects_identical_x (x y : list Q) : result unit :=
  match x with
  | x0 :: x1 :: rest =>
      if forallb (Qeq_bool x0) (x1 :: rest) then Raise ValueError else Ok tt
  | _ => Ok tt
  end.

Definition always (r : response) : nat -> string -> result response :=
  fun _ _ => Ok r.

(** The service answers the first request with a server error and every
    later one with the rising limb. *)
Definition failing_once : nat -> string -> result response :=
  fun n _ =>
    match n with
    | O => Ok (mkResponse 500 None)
    | S _ => Ok (mkResponse 200 (Some rising))
    end.

End Service.

(** Tables used in the examples. *)

Definition row_of (rank_text height_text date_text : string) : csv_row :=
  mkRow (Some rank_text) (Some height_text) (Some date_text) None.

(** The record of scenario A of the specification. *)
Definition table_1936 : list csv_row := [row_of "1" "34.70 ft" "on 02-01-1936"].

Definition table_2020 : list csv_row :=
  [row_of "1" "34.70 ft" "on 02-01-1936";
   row_of "2" "21.30 ft" "on 03-02-2020";
   row_of "3" "19.80 ft" "on 04-15-2005"].

(** A height text without any digit, and a height of zero. *)
Definition table_dotted : list csv_row :=
  [row_of "7" "est. unknown" "on 02-01-1995"].

Definition table_zero : list csv_row := [row_of "12" "0.00 ft" "on 02-01-2000"].


(** The frames the parser returns for the first two tables. *)
Definition frame_1936 : list crest_row :=
  [mkCrest (row_of "1" "34.70 ft" "on 02-01-1936")
           (Some (3470 # 100)) (Some (mkDate 1936 2 1))].

Definition frame_2020 : list crest_row :=
  [mkCrest (row_of "1" "34.70 ft" "on 02-01-1936")
           (Some (3470 # 100)) (Some (mkDate 1936 2 1));
   mkCrest (row_of "2" "21.30 ft" "on 03-02-2020")
           (Some (2130 # 100)) (Some (mkDate 2020 3 2));
   mkCrest (row_of "3" "19.80 ft" "on 04-15-2005")
           (Some (1980 # 100)) (Some (mkDate 2005 4 15))].




(** ** Vocabulary of the statements *)

(** The effects of the analysis stage. *)
Definition is_analysis (e : effect) : bool :=
  match e with
  | Linregress _ _ => true
  | ShowPlot => true
  | _ => false
  end.

(** [tr'] extends [tr] by effects that are prints and requests only. *)
Definition extends_quietly (tr tr' : list effect) : Prop :=
  exists added,
    tr' = tr ++ added /\ forallb (fun e => negb (is_analysis e)) added = true.

(** A decoded body that is an object with no time series in it: the
    ["value"] entry or its ["timeSeries"] entry is missing, or the list
    of time series is empty. *)
Definition no_time_series (data : json) : bool :=
  match data with
  | JObject fields =>
      match Py.lookup "value" fields with
      | None => true
      | Some (JObject inner) =>
          match Py.lookup "timeSeries" inner with
          | None => true
          | Some (JArray []) => true
          | _ => false
          end
      | _ => false
      end
  | _ => false
  end.

(** A status of the 2xx class. *)
Definition success_status (r : response) : Prop :=
  (200 <= status_code r < 300)%Z.

(** The statuses [raise_for_status] rejects. *)
Definition error_status (r : response) : Prop :=
  (400 <= status_code r < 600)%Z.

(** The test [value >= REFERENCE_STAGE] on a row of [hourly_df]. *)
Definition at_or_above_stage (row : hourly_row) : Prop :=
  Hourly.reaches_stage (value row) = true.

(** What one turn of the loop may do to the state: count a skip, or
    keep a feature whose rate is positive. *)
Inductive turn (st : loop_state) : loop_state -> Prop :=
| turn_skip : turn st (skip st)
| turn_keep (f : event_feature) :
    0 < rate_of_rise_per_hr f -> turn st (keep st f).

Definition positive_rates (st : loop_state) : Prop :=
  Forall (fun f => 0 < rate_of_rise_per_hr f) (results st).

Definition counts_agree (st : loop_state) : Prop :=
  valid_event_count st = Z.of_nat (List.length (results st)).

(** A text of ASCII characters, and a table whose height and date texts
    are ASCII: on these the two patterns of the model match what the
    patterns of the code match. *)
Definition is_ascii_text (s : string) : bool :=
  Regex.all_chars (fun c => Nat.ltb (nat_of_ascii c) 128) s.

Definition ascii_cell (text : option string) : bool :=
  match text with
  | Some s => is_ascii_text s
  | None => true
  end.

Definition ascii_row (row : csv_row) : bool :=
  (ascii_cell (height_str row) && ascii_cell (date_str row))%bool.

(** A row whose height text holds a run of digits and dots, and a row
    whose date text holds the date pattern. *)
Definition has_height_token (row : csv_row) : bool :=
  match height_str row with
  | Some s => not_null (Regex.search_number s)
  | None => false
  end.

Definition has_date_token (row : csv_row) : bool :=
  match date_str row with
  | Some s => not_null (Regex.search_date s)
  | None => false
  end.

(** The text [s] is empty or begins with a character outside [p]: a run
    of [p] characters ends where [s] begins. *)
Definition stops (p : ascii -> bool) (s : string) : bool :=
  match s with
  | EmptyString => true
  | String c _ => negb (p c)
  end.

(** A table with rows the parser drops. *)
Definition table_mixed : list csv_row :=
  [row_of "1" "34.70 ft" "on 02-01-1936";
   row_of "2" "unknown" "on 03-02-2020";
   mkRow (Some "3"%string) None (Some "on 04-15-2005"%string) None;
   row_of "4" "19.80 ft" "date unknown";
   row_of "5" "-21.30 ft" "on 03-02-2020 and 03-03-2020"].

(** A decoded JSON value that is an object (a Python dict). *)
Definition is_object (j : json) : bool :=
  match j with
  | JObject _ => true
  | _ => false
  end.

(** A body with two time series, the first with two blocks of values. *)
Definition two_series : json :=
  JObject [("value"%string,
    JObject [("timeSeries"%string,
      JArray [JObject [("values"%string,
                JArray [JObject [("value"%string,
                          JArray [Service.reading
                                    "2020-03-01T08:00:00.000-06:00" "13.4"])];
                        JObject [("value"%string,
                          JArray [Service.reading
                                    "2020-03-01T08:00:00.000-06:00" "99.9"])]])];
              JObject [("values"%string, JArray [])]])])].

(** Bodies whose shape is not the documented one. *)
Definition null_series : json :=
  JObject [("value"%string, JObject [("timeSeries"%string, JNull)])].

Definition null_value : json := JObject [("value"%string, JNull)].

(** The mean gage height of the hour that begins at [b]. *)
Definition hour_mean (event : event_df) (b : Z) : option Q :=
  Hourly.mean (Hourly.bucket_values event b).

(** The rows of the hourly frame over the labels [ls], when [g] gives the
    mean of each hour and [prev] is the value before the first row. *)
Fixpoint rows_from (g : Z -> option Q) (prev : option Q) (ls : list Z)
  : list hourly_row :=
  match ls with
  | [] => []
  | l :: ls' =>
      mkHourly l (g l) (Hourly.minus (g l) prev) :: rows_from g (g l) ls'
  end.

(** Consecutive hours from [l] on. *)
Fixpoint contiguous (l : Z) (ls : list Z) : Prop :=
  match ls with
  | [] => True
  | x :: ls' => x = l /\ contiguous (l + 3600) ls'
  end.

(** A window with a gap: no observation in the hour before the stage is
    reached. *)
Definition gap_before_crossing : event_df :=
  [(1583071200%Z, 13 # 1); (1583078400%Z, 16 # 1); (1583082000%Z, 17 # 1)].

(** A window that stays below the reference stage. *)
Definition below_stage : event_df :=
  [(1583071200%Z, 13 # 1); (1583073000%Z, 149 # 10); (1583078400%Z, 14 # 1)].

(** The frame of the rising limb of [Service.rising], and the feature
    it yields for the crest of 2020-03-02. *)
Definition rising_frame : event_df :=
  [(1583071200%Z, 134 # 10); (1583073000%Z, 138 # 10);
   (1583074800%Z, 142 # 10); (1583078400%Z, 150 # 10);
   (1583082000%Z, 158 # 10)].

Definition rising_feature : event_feature :=
  mkFeature (mkDate 2020 3 2) (2130 # 100) (80 # 100) 1583078400.




(** * Properties *)

(** ** Fallible computations *)

Lemma bind_ok {A B : Type} (r : result A) (k : A -> result B) (b : B) :
  bind r k = Ok b -> exists a, r = Ok a /\ k a = Ok b.
Proof.
  destruct r as [a | e]; simpl; intros H.
  - exists a. split; [reflexivity | exact H].
  - discriminate H.
Qed.

Lemma ok_injective {A : Type} (a b : A) : Ok a = Ok b -> a = b.
Proof. intros H. injection H as H. exact H. Qed.

Lemma apply_ok {A B : Type} (f : A -> result B) (col : list A) (out : list B) :
  apply f col = Ok out -> Forall2 (fun a b => f a = Ok b) col out.
Proof.
  revert out. induction col as [| a col IH]; simpl; intros out H.
  - injection H as <-. constructor.
  - apply bind_ok in H. destruct H as [b [Hb H]].
    apply bind_ok in H. destruct H as [bs [Hbs H]].
    injection H as <-. constructor; [exact Hb | apply IH; exact Hbs].
Qed.

(** ** The parser *)

Lemma take_while_all (p : ascii -> bool) (s : string) :
  Regex.all_chars p (Regex.take_while p s) = true.
Proof.
  induction s as [| c s IH]; simpl; [reflexivity |].
  destruct (p c) eqn:Hc; simpl; [rewrite Hc; exact IH | reflexivity].
Qed.

Lemma all_chars_app (p : ascii -> bool) (s t : string) :
  Regex.all_chars p s = true -> Regex.all_chars p t = true ->
  Regex.all_chars p (s ++ t) = true.
Proof.
  intros Hs Ht. induction s as [| c s IH]; simpl in *; [exact Ht |].
  apply andb_true_iff in Hs. destruct Hs as [Hc Hs].
  rewrite Hc. simpl. apply IH. exact Hs.
Qed.

Lemma digit_value_nonneg (c : ascii) :
  Regex.is_digit c = true -> (0 <= Decimal.digit_value c)%Z.
Proof.
  unfold Regex.is_digit, Decimal.digit_value. intros H.
  apply andb_true_iff in H. destruct H as [H _].
  apply Nat.leb_le in H. lia.
Qed.

Lemma digits_value_from_nonneg (s : string) (acc : Z) :
  Regex.all_chars Regex.is_digit s = true -> (0 <= acc)%Z ->
  (0 <= Decimal.digits_value_from acc s)%Z.
Proof.
  revert acc.
  induction s as [| c s IH]; cbn [Decimal.digits_value_from Regex.all_chars];
    intros acc Hs Hacc; [exact Hacc |].
  apply andb_true_iff in Hs. destruct Hs as [Hc Hs].
  apply IH; [exact Hs |]. pose proof (digit_value_nonneg c Hc). lia.
Qed.

(** [float] never yields a negative number on a token of digits and
    dots: the pattern cannot match a sign. *)
Lemma python_float_nonneg (tok : string) (h : Q) :
  Decimal.python_float tok = Ok h -> 0 <= h.
Proof.
  unfold Decimal.python_float.
  pose proof (take_while_all Regex.is_digit tok) as Hip.
  destruct (Regex.drop_while Regex.is_digit tok) as [| c fp].
  - destruct (Decimal.is_empty _); [discriminate |].
    intros H. injection H as <-.
    unfold Qle. simpl.
  pose proof (digits_value_from_nonneg _ 0%Z Hip (Z.le_refl 0)).
    unfold Decimal.digits_value. lia.
  - destruct (Ascii.eqb c "." && Regex.all_chars Regex.is_digit fp
              && negb (Decimal.is_empty _ && Decimal.is_empty fp))%bool eqn:Hc;
      [| discriminate].
    intros H. injection H as <-.
    apply andb_true_iff in Hc. destruct Hc as [Hc _].
    apply andb_true_iff in Hc. destruct Hc as [_ Hfp].
    unfold Qle. simpl.
    pose proof (digits_value_from_nonneg _ 0%Z (all_chars_app _ _ _ Hip Hfp)
                  (Z.le_refl 0)).
    unfold Decimal.digits_value. lia.
Qed.

Lemma extract_height_nonneg (text : option string) (h : Q) :
  extract_height text = Ok (Some h) -> 0 <= h.
Proof.
  unfold extract_height. destruct text as [s |]; [| discriminate].
  destruct (Regex.search_number s) as [tok |]; [| discriminate].
  intros H. apply bind_ok in H. destruct H as [q [Hq H]].
  injection H as <-. exact (python_float_nonneg tok q Hq).
Qed.

Lemma zip_columns_in (df : list csv_row) (hs : list (option Q))
  (ds : list (option date)) (r : crest_row) :
  Forall2 (fun a b => extract_height a = Ok b) (map height_str df) hs ->
  In r (zip_columns df hs ds) ->
  extract_height (height_str (source r)) = Ok (crest_height r).
Proof.
  revert hs ds. induction df as [| row df IH]; intros hs ds Hhs Hin.
  - destruct Hin.
  - destruct hs as [| h hs]; [destruct Hin |].
    destruct ds as [| d ds]; [destruct Hin |].
    simpl in Hhs. inversion Hhs; subst. destruct Hin as [<- | Hin].
    + simpl. assumption.
    + eapply IH; eassumption.
Qed.

Lemma dropna_not_null (df : list crest_row) (r : crest_row) :
  In r (dropna df) ->
  In r df /\ crest_height r <> None /\ crest_date r <> None.
Proof.
  unfold dropna. intros H. apply filter_In in H. destruct H as [Hin H].
  apply andb_true_iff in H. destruct H as [Hh Hd].
  split; [exact Hin |].
  split; [destruct (crest_height r) | destruct (crest_date r)];
    simpl in *; congruence.
Qed.


Lemma apply_raises_in {A B : Type} (f : A -> result B) (col : list A) (a : A)
  (e : exn) :
  In a col -> f a = Raise e -> exists e', apply f col = Raise e'.
Proof.
  intros Hin Ha. induction col as [| x col IH]; [destruct Hin |].
  simpl. destruct (f x) as [b | e0] eqn:Hx; simpl.
  - destruct Hin as [-> | Hin]; [congruence |].
    destruct (IH Hin) as [e' He']. rewrite He'. exists e'. reflexivity.
  - exists e0. reflexivity.
Qed.

(** A single height text whose first run of digits and dots is no number
    makes the whole parse raise, whatever the other rows are. *)
Lemma parse_crest_csv_raises (table : list csv_row) (row : csv_row)
  (s tok : string) (e : exn) :
  In row table ->
  height_str row = Some s ->
  Regex.search_number s = Some tok ->
  Decimal.python_float tok = Raise e ->
  exists e', parse_crest_csv table = Raise e'.
Proof.
  intros Hin Hs Htok He.
  assert (Hrow : extract_height (height_str row) = Raise e).
  { rewrite Hs. unfold extract_height. rewrite Htok, He. reflexivity. }
  destruct (apply_raises_in extract_height (map height_str table)
              (height_str row) e (in_map height_str table row Hin) Hrow)
    as [e' He'].
  exists e'. unfold parse_crest_csv. rewrite He'. reflexivity.
Qed.

(** C3, at the failing input.  The height text "est. unknown" contains no
    digit, so no height can be extracted from it; the parser does not
    drop the row but raises a ValueError, because the pattern matches the
    lone dot and [float] rejects it. *)
Theorem parse_crest_csv_lone_dot :
  Regex.all_chars (fun c => negb (Regex.is_digit c)) "est. unknown" = true
  /\ Regex.search_number "est. unknown" = Some "."%string
  /\ parse_crest_csv table_dotted = Raise ValueError.
Proof. repeat split; reflexivity. Qed.

(** C9, amended: every row of the frame the parser returns has a crest
    height, and that height is greater than or equal to zero. *)
Theorem parse_crest_csv_height_nonneg (table : list csv_row)
  (df : list crest_row) (r : crest_row) :
  parse_crest_csv table = Ok df -> In r df ->
  exists h, crest_height r = Some h /\ 0 <= h.
Proof.
  unfold parse_crest_csv. intros H Hin.
  apply bind_ok in H. destruct H as [hs [Hhs H]].
  apply bind_ok in H. destruct H as [ds [_ H]].
  injection H as <-. apply dropna_not_null in Hin.
  destruct Hin as [Hin [Hh _]].
  apply apply_ok in Hhs.
  pose proof (zip_columns_in table hs ds r Hhs Hin) as Hx.
  destruct (crest_height r) as [h |]; [| congruence].
  exists h. split; [reflexivity |].
  exact (extract_height_nonneg _ h Hx).
Qed.

Lemma parse_crest_csv_height_nonneg_witness :
  exists h,
    crest_height (mkCrest (row_of "1" "34.70 ft" "on 02-01-1936")
                          (Some (3470 # 100)) (Some (mkDate 1936 2 1))) = Some h
    /\ 0 <= h.
Proof.
  apply (parse_crest_csv_height_nonneg table_1936
           [mkCrest (row_of "1" "34.70 ft" "on 02-01-1936")
                    (Some (3470 # 100)) (Some (mkDate 1936 2 1))]).
  - reflexivity.
  - simpl. left. reflexivity.
Defined.

(** C9 as stated fails: a height text "0.00 ft" is parsed to a crest
    height of zero and the row is kept. *)
Lemma parse_crest_csv_height_positive_counterexample :
  ~ (forall (table : list csv_row) (df : list crest_row) (r : crest_row) (h : Q),
        parse_crest_csv table = Ok df -> In r df ->
        crest_height r = Some h -> 0 < h).
Proof.
  intros H.
  specialize (H table_zero
                [mkCrest (row_of "12" "0.00 ft" "on 02-01-2000")
                         (Some (0 # 100)) (Some (mkDate 2000 2 1))]
                _ (0 # 100) eq_refl (or_introl eq_refl) eq_refl).
  unfold Qlt in H. simpl in H. lia.
Qed.

(** ** The fetcher *)

Section Fetcher.

Variable requests_get : nat -> string -> result response.
Variable data_frame : json -> result event_df.

Lemma read_response_error_status (r : response) :
  error_status r -> read_response data_frame r = Raise HTTPError.
Proof.
  unfold error_status, read_response, raise_for_status. intros [Hlo Hhi].
  apply Z.leb_le in Hlo. apply Z.ltb_lt in Hhi. rewrite Hlo, Hhi. reflexivity.
Qed.

Lemma raise_for_status_ok (r : response) :
  ~ error_status r -> raise_for_status r = Ok tt.
Proof.
  unfold error_status, raise_for_status. intros H.
  destruct (400 <=? status_code r)%Z eqn:Hlo; [| reflexivity].
  destruct (status_code r <? 600)%Z eqn:Hhi; [| reflexivity].
  apply Z.leb_le in Hlo. apply Z.ltb_lt in Hhi. exfalso. apply H. lia.
Qed.

Lemma read_response_not_json (r : response) :
  body r = None -> exists e, read_response data_frame r = Raise e.
Proof.
  unfold read_response, response_json. intros Hb. rewrite Hb.
  destruct (raise_for_status r) as [[] | e]; simpl; eexists; reflexivity.
Qed.

Lemma read_response_no_series (r : response) (data : json) :
  ~ error_status r -> body r = Some data -> no_time_series data = true ->
  read_response data_frame r = Ok [].
Proof.
  intros Hs Hb Hz. unfold read_response, response_json.
  rewrite (raise_for_status_ok r Hs), Hb. simpl.
  destruct data as [| | | | | fields]; try discriminate Hz.
  simpl in *. destruct (Py.lookup "value" fields) as [v |]; [| reflexivity].
  destruct v as [| | | | | inner]; try discriminate Hz.
  simpl. destruct (Py.lookup "timeSeries" inner) as [ts |]; [| reflexivity].
  destruct ts as [| | | | items |]; try discriminate Hz.
  destruct items; [reflexivity | discriminate Hz].
Qed.

Lemma fetch_usgs_iv_result (station_id start_dt end_dt : string)
  (tr : list effect) :
  fetch_usgs_iv requests_get data_frame station_id start_dt end_dt tr
  = (bind (requests_get (requests_sent tr) (iv_url station_id start_dt end_dt))
          (read_response data_frame),
     tr ++ [Get (iv_url station_id start_dt end_dt)]).
Proof.
  unfold fetch_usgs_iv, io_bind, http_get, lift.
  destruct (requests_get _ _); reflexivity.
Qed.

(** C5, amended: the fetcher raises whenever the status is 4xx or 5xx or
    the body is not JSON, and it returns the empty frame when the status
    is not an error status and the body is a JSON object without any
    time series. *)
Theorem fetch_usgs_iv_outcomes (station_id start_dt end_dt : string)
  (tr : list effect) (r : response) :
  requests_get (requests_sent tr) (iv_url station_id start_dt end_dt) = Ok r ->
  (error_status r \/ body r = None ->
   exists e, fst (fetch_usgs_iv requests_get data_frame
                    station_id start_dt end_dt tr) = Raise e)
  /\ (forall data,
        ~ error_status r -> body r = Some data -> no_time_series data = true ->
        fst (fetch_usgs_iv requests_get data_frame
               station_id start_dt end_dt tr) = Ok []).
Proof.
  intros Hr. rewrite fetch_usgs_iv_result, Hr. simpl. split.
  - intros [Hs | Hb].
    + exists HTTPError. apply read_response_error_status. exact Hs.
    + apply read_response_not_json. exact Hb.
  - intros data Hs Hb Hz. exact (read_response_no_series r data Hs Hb Hz).
Qed.

End Fetcher.

Lemma fetch_usgs_iv_outcomes_witness :
  (error_status (mkResponse 200 (Some Service.no_series))
   \/ body (mkResponse 200 (Some Service.no_series)) = None ->
   exists e, fst (fetch_usgs_iv
                    (Service.always (mkResponse 200 (Some Service.no_series)))
                    Service.data_frame STATION_ID "2020-02-27" "2020-03-03" [])
             = Raise e)
  /\ (forall data,
        ~ error_status (mkResponse 200 (Some Service.no_series)) ->
        body (mkResponse 200 (Some Service.no_series)) = Some data ->
        no_time_series data = true ->
        fst (fetch_usgs_iv
               (Service.always (mkResponse 200 (Some Service.no_series)))
               Service.data_frame STATION_ID "2020-02-27" "2020-03-03" [])
        = Ok []).
Proof.
  apply (fetch_usgs_iv_outcomes
           (Service.always (mkResponse 200 (Some Service.no_series)))
           Service.data_frame STATION_ID "2020-02-27" "2020-03-03" []
           (mkResponse 200 (Some Service.no_series))).
  reflexivity.
Defined.

(** C5 as stated fails in both directions: a 200 response whose JSON body
    has a first time series without a ["values"] entry makes the fetcher
    raise a KeyError, and a 304 response with a JSON body without time
    series makes it return the empty frame. *)
Lemma fetch_usgs_iv_exactly_when_counterexample :
  (fst (fetch_usgs_iv (Service.always (mkResponse 200 (Some Service.bare_series)))
          Service.data_frame STATION_ID "2020-02-27" "2020-03-03" [])
   = Raise KeyError
   /\ success_status (mkResponse 200 (Some Service.bare_series))
   /\ body (mkResponse 200 (Some Service.bare_series)) <> None)
  /\ (fst (fetch_usgs_iv (Service.always (mkResponse 304 (Some Service.no_series)))
             Service.data_frame STATION_ID "2020-02-27" "2020-03-03" [])
      = Ok []
      /\ ~ success_status (mkResponse 304 (Some Service.no_series))).
Proof.
  unfold success_status. simpl.
  repeat split; try reflexivity; try lia; try discriminate.
Qed.

(** ** Hourly buckets and the crossing *)

Lemma minimum_le_head (xs : list Z) (x : Z) : (Hourly.minimum x xs <= x)%Z.
Proof.
  unfold Hourly.minimum. revert x.
  induction xs as [| y xs IH]; intros x; simpl; [lia |].
  specialize (IH (Z.min x y)). lia.
Qed.

Lemma minimum_le_in (xs : list Z) (x y : Z) :
  In y xs -> (Hourly.minimum x xs <= y)%Z.
Proof.
  unfold Hourly.minimum. revert x.
  induction xs as [| z xs IH]; intros x Hin; [destruct Hin |].
  simpl. destruct Hin as [-> | Hin].
  - pose proof (minimum_le_head xs (Z.min x y)) as H.
    unfold Hourly.minimum in H. lia.
  - apply IH. exact Hin.
Qed.

Lemma minimum_in (xs : list Z) (x : Z) : In (Hourly.minimum x xs) (x :: xs).
Proof.
  unfold Hourly.minimum. revert x.
  induction xs as [| y xs IH]; intros x; simpl; [left; reflexivity |].
  destruct (IH (Z.min x y)) as [H | H].
  - destruct (Z.min_spec x y) as [[_ E] | [_ E]]; rewrite E in *; auto.
  - right. right. exact H.
Qed.

Lemma index_min_some (idx : list Z) (c : Z) :
  Hourly.index_min idx = Some c ->
  In c idx /\ forall i, In i idx -> (c <= i)%Z.
Proof.
  destruct idx as [| i idx]; simpl; [discriminate |].
  intros H. injection H as <-. split.
  - apply minimum_in.
  - intros j [<- | Hj]; [apply minimum_le_head | apply minimum_le_in; exact Hj].
Qed.

Lemma index_min_none (idx : list Z) :
  Hourly.index_min idx = None <-> idx = [].
Proof.
  destruct idx; simpl; split; intros H; try reflexivity; discriminate H.
Qed.

(** The label chosen is the least label among the rows at or above the
    stage, whatever the order of the rows. *)
Lemma crossed_idx_some (hourly_df : list hourly_row) (c : Z) :
  Hourly.crossed_idx hourly_df = Some c ->
  (exists row, In row hourly_df /\ bucket row = c /\ at_or_above_stage row)
  /\ (forall row, In row hourly_df -> at_or_above_stage row -> (c <= bucket row)%Z).
Proof.
  unfold Hourly.crossed_idx, at_or_above_stage. intros H.
  apply index_min_some in H. destruct H as [Hin Hmin]. split.
  - apply in_map_iff in Hin. destruct Hin as [row [Hb Hrow]].
    apply filter_In in Hrow. destruct Hrow as [Hrow Hv].
    exists row. auto.
  - intros row Hrow Hv. apply Hmin. apply in_map.
    apply filter_In. auto.
Qed.

Lemma crossed_idx_none (hourly_df : list hourly_row) :
  Hourly.crossed_idx hourly_df = None <->
  (forall row, In row hourly_df -> Hourly.reaches_stage (value row) = false).
Proof.
  unfold Hourly.crossed_idx. rewrite index_min_none. split.
  - intros H row Hrow.
    destruct (Hourly.reaches_stage (value row)) eqn:Hv; [| reflexivity].
    assert (Hin : In (bucket row)
                     (map bucket (filter (fun r => Hourly.reaches_stage (value r))
                                         hourly_df))).
    { apply in_map. apply filter_In. auto. }
    rewrite H in Hin. destruct Hin.
  - intros H.
    destruct (filter (fun r => Hourly.reaches_stage (value r)) hourly_df)
      as [| row rest] eqn:Hf; [reflexivity |].
    assert (Hin : In row (filter (fun r => Hourly.reaches_stage (value r)) hourly_df)).
    { rewrite Hf. left. reflexivity. }
    apply filter_In in Hin. destruct Hin as [Hrow Hv].
    rewrite (H row Hrow) in Hv. discriminate Hv.
Qed.

Lemma zip_with_in {A B C : Type} (f : A -> B -> C) (xs : list A) (ys : list B)
  (c : C) :
  In c (Hourly.zip_with f xs ys) -> exists x y, In x xs /\ In y ys /\ c = f x y.
Proof.
  revert ys. induction xs as [| x xs IH]; intros ys Hin; [destruct Hin |].
  destruct ys as [| y ys]; [destruct Hin |].
  destruct Hin as [<- | Hin].
  - exists x, y. simpl. auto.
  - destruct (IH ys Hin) as [x' [y' [Hx [Hy E]]]].
    exists x', y'. simpl. auto.
Qed.

(** Every row of [hourly_df] carries the mean of the raw values whose
    instant falls in its hour. *)
Lemma hourly_row_mean (event : event_df) (row : hourly_row) :
  In row (Hourly.hourly event) ->
  value row = Hourly.mean (Hourly.bucket_values event (bucket row)).
Proof.
  unfold Hourly.hourly, Hourly.resample_mean. intros Hin.
  apply zip_with_in in Hin. destruct Hin as [x [rate [Hx [_ ->]]]].
  apply in_map_iff in Hx. destruct Hx as [b [<- _]]. reflexivity.
Qed.

Lemma reaches_stage_iff (v : option Q) :
  Hourly.reaches_stage v = true <-> exists q, v = Some q /\ REFERENCE_STAGE <= q.
Proof.
  destruct v as [q |]; simpl.
  - rewrite Qle_bool_iff. split.
    + intros H. exists q. auto.
    + intros [q' [E H]]. injection E as ->. exact H.
  - split; [discriminate | intros [q [E _]]; discriminate E].
Qed.

(** ** One event *)

Lemma skip_is_not_keep (st : loop_state) (f : event_feature) :
  skip st <> keep st f.
Proof.
  unfold skip, keep. intros H. injection H as H _.
  apply (f_equal (@List.length event_feature)) in H.
  rewrite length_app in H. simpl in H. lia.
Qed.

Lemma keep_injective (st : loop_state) (f g : event_feature) :
  keep st f = keep st g -> f = g.
Proof.
  unfold keep. intros H. injection H as H.
  apply app_inv_head in H. injection H as ->. reflexivity.
Qed.

(** The outcome of [process_event], branch by branch. *)
Lemma process_event_result (st : loop_state) (d : date) (h : Q)
  (event : event_df) (tr : list effect) :
  fst (process_event st d h event tr)
  = match event with
    | [] => Ok (skip st)
    | _ =>
        match Hourly.crossed_idx (Hourly.hourly event) with
        | None => Ok (skip st)
        | Some c =>
            match Hourly.loc_rate (Hourly.hourly event) c with
            | Raise e => Raise e
            | Ok None => Ok (skip st)
            | Ok (Some r) =>
                if Qle_bool r 0 then Ok (skip st)
                else Ok (keep st (mkFeature d h r c))
            end
        end
    end.
Proof.
  unfold process_event. destruct event as [| row event]; [reflexivity |].
  destruct (Hourly.crossed_idx _) as [c |]; [| reflexivity].
  unfold io_bind, lift.
  destruct (Hourly.loc_rate _ c) as [[r |] | e]; try reflexivity.
  destruct (Qle_bool r 0); reflexivity.
Qed.

Lemma process_event_turn (st st' : loop_state) (d : date) (h : Q)
  (event : event_df) (tr : list effect) :
  fst (process_event st d h event tr) = Ok st' -> turn st st'.
Proof.
  rewrite process_event_result.
  destruct event as [| row event].
  - intros H. injection H as <-. constructor.
  - destruct (Hourly.crossed_idx _) as [c |].
    + destruct (Hourly.loc_rate _ c) as [[r |] | e]; try discriminate.
      * destruct (Qle_bool r 0) eqn:Hr; intros H; injection H as <-.
        -- constructor.
        -- constructor. simpl. apply Qnot_le_lt. intros Hle.
           apply Qle_bool_iff in Hle. congruence.
      * intros H. injection H as <-. constructor.
    + intros H. injection H as <-. constructor.
Qed.

Lemma extends_quietly_refl (tr : list effect) : extends_quietly tr tr.
Proof. exists []. rewrite app_nil_r. auto. Qed.

Lemma extends_quietly_trans (a b c : list effect) :
  extends_quietly a b -> extends_quietly b c -> extends_quietly a c.
Proof.
  intros [x [-> Hx]] [y [-> Hy]]. exists (x ++ y).
  rewrite app_assoc, forallb_app, Hx, Hy. auto.
Qed.

Lemma extends_quietly_snoc (tr : list effect) (e : effect) :
  is_analysis e = false -> extends_quietly tr (tr ++ [e]).
Proof. intros H. exists [e]. simpl. rewrite H. auto. Qed.

Lemma process_event_quiet (st : loop_state) (d : date) (h : Q)
  (event : event_df) (tr : list effect) :
  extends_quietly tr (snd (process_event st d h event tr)).
Proof.
  unfold process_event. destruct event as [| row event].
  - apply extends_quietly_snoc. reflexivity.
  - destruct (Hourly.crossed_idx _) as [c |].
    + unfold io_bind, lift.
      destruct (Hourly.loc_rate _ c) as [[r |] | e].
      * destruct (Qle_bool r 0); apply extends_quietly_snoc; reflexivity.
      * apply extends_quietly_snoc. reflexivity.
      * apply extends_quietly_refl.
    + apply extends_quietly_snoc. reflexivity.
Qed.

(** C1: the crossing is the least label among the hourly rows whose mean
    is at or above the reference stage, it exists as soon as one row is
    at or above the stage, it is the crossing time of the feature the
    event yields, and an event without such a row yields no feature. *)
Theorem crossing_is_leftmost (st : loop_state) (d : date) (h : Q)
  (event : event_df) (tr : list effect) :
  (forall row, In row (Hourly.hourly event) ->
     value row = Hourly.mean (Hourly.bucket_values event (bucket row)))
  /\ (forall c, Hourly.crossed_idx (Hourly.hourly event) = Some c ->
        (exists row, In row (Hourly.hourly event) /\ bucket row = c
                     /\ at_or_above_stage row)
        /\ (forall row, In row (Hourly.hourly event) -> at_or_above_stage row ->
              (c <= bucket row)%Z))
  /\ (forall row, In row (Hourly.hourly event) -> at_or_above_stage row ->
        exists c, Hourly.crossed_idx (Hourly.hourly event) = Some c)
  /\ (forall f, fst (process_event st d h event tr) = Ok (keep st f) ->
        Hourly.crossed_idx (Hourly.hourly event) = Some (cross_time f))
  /\ ((forall row, In row (Hourly.hourly event) -> ~ at_or_above_stage row) ->
      Hourly.crossed_idx (Hourly.hourly event) = None
      /\ fst (process_event st d h event tr) = Ok (skip st)).
Proof.
  split; [intros row; apply hourly_row_mean |].
  split; [intros c; apply crossed_idx_some |].
  split; [| split].
  - intros row Hrow Hv.
    destruct (Hourly.crossed_idx (Hourly.hourly event)) as [c |] eqn:Hc;
      [exists c; reflexivity |].
    rewrite crossed_idx_none in Hc. unfold at_or_above_stage in Hv.
    rewrite (Hc row Hrow) in Hv. discriminate Hv.
  - intros f. rewrite process_event_result.
    destruct event as [| r0 event].
    + intros H. apply ok_injective in H. destruct (skip_is_not_keep st f H).
    + destruct (Hourly.crossed_idx _) as [c |].
      * destruct (Hourly.loc_rate _ c) as [[r |] | e]; try discriminate.
        -- destruct (Qle_bool r 0); intros H; apply ok_injective in H.
           ++ destruct (skip_is_not_keep st f H).
           ++ apply keep_injective in H. subst f. reflexivity.
        -- intros H. apply ok_injective in H. destruct (skip_is_not_keep st f H).
      * intros H. apply ok_injective in H. destruct (skip_is_not_keep st f H).
  - intros Hnone.
    assert (Hc : Hourly.crossed_idx (Hourly.hourly event) = None).
    { apply crossed_idx_none. intros row Hrow.
      specialize (Hnone row Hrow). unfold at_or_above_stage in Hnone.
      destruct (Hourly.reaches_stage (value row)); congruence. }
    split; [exact Hc |].
    rewrite process_event_result, Hc. destruct event; reflexivity.
Qed.

(** ** The main loop *)

Lemma turn_tally (st st' : loop_state) :
  turn st st' ->
  (valid_event_count st' + skipped_event_count st'
   = valid_event_count st + skipped_event_count st + 1)%Z.
Proof. intros [| f _]; simpl; lia. Qed.

Lemma turn_positive_rates (st st' : loop_state) :
  turn st st' -> positive_rates st -> positive_rates st'.
Proof.
  unfold positive_rates. intros [| f Hf] H; simpl; [exact H |].
  apply Forall_app. split; [exact H | constructor; [exact Hf | constructor]].
Qed.

Lemma turn_counts_agree (st st' : loop_state) :
  turn st st' -> counts_agree st -> counts_agree st'.
Proof.
  unfold counts_agree. intros [| f _] H; simpl; [exact H |].
  rewrite length_app. simpl. lia.
Qed.



Section Loop.

Variable requests_get : nat -> string -> result response.
Variable data_frame : json -> result event_df.


Lemma try_body_result (st : loop_state) (d : date) (h : Q)
  (start_dt end_dt : string) (tr : list effect) :
  try_body requests_get data_frame st d h start_dt end_dt tr
  = match bind (requests_get (requests_sent tr) (iv_url STATION_ID start_dt end_dt))
               (read_response data_frame) with
    | Ok event =>
        process_event st d h event (tr ++ [Get (iv_url STATION_ID start_dt end_dt)])
    | Raise e => (Raise e, tr ++ [Get (iv_url STATION_ID start_dt end_dt)])
    end.
Proof.
  unfold try_body, io_bind.
  rewrite fetch_usgs_iv_result.
  destruct (bind _ _); reflexivity.
Qed.

Lemma try_body_turn (st st' : loop_state) (d : date) (h : Q)
  (start_dt end_dt : string) (tr : list effect) :
  fst (try_body requests_get data_frame st d h start_dt end_dt tr) = Ok st' ->
  turn st st'.
Proof.
  rewrite try_body_result. destruct (bind _ _) as [event | e].
  - apply process_event_turn.
  - discriminate.
Qed.

Lemma try_body_quiet (st : loop_state) (d : date) (h : Q)
  (start_dt end_dt : string) (tr : list effect) :
  extends_quietly tr
    (snd (try_body requests_get data_frame st d h start_dt end_dt tr)).
Proof.
  rewrite try_body_result. destruct (bind _ _) as [event | e].
  - apply (extends_quietly_trans tr
             (tr ++ [Get (iv_url STATION_ID start_dt end_dt)]));
      [apply extends_quietly_snoc; reflexivity | apply process_event_quiet].
  - apply extends_quietly_snoc. reflexivity.
Qed.

(** A turn of the loop for a crest of an eligible year: the [try]
    statement. *)
Lemma iteration_eligible (st : loop_state) (d : date) (h : Q) (tr : list effect) :
  (MIN_IV_YEAR <= year d)%Z ->
  iteration requests_get data_frame st (d, h) tr
  = try_except
      (try_body requests_get data_frame st d h
                       (Format.iso_date (Calendar.add_days d (-4)))
                       (Format.iso_date (Calendar.add_days d 1)))
      (handler st)
      (tr ++ [Print (ProcessingCrest d h)]).
Proof.
  intros Hy. unfold iteration.
  destruct (year d <? MIN_IV_YEAR)%Z eqn:E; [apply Z.ltb_lt in E; lia |].
  reflexivity.
Qed.

Lemma iteration_early (st : loop_state) (d : date) (h : Q) (tr : list effect) :
  (year d < MIN_IV_YEAR)%Z ->
  iteration requests_get data_frame st (d, h) tr = (Ok (skip st), tr).
Proof.
  intros Hy. unfold iteration.
  apply Z.ltb_lt in Hy. rewrite Hy. reflexivity.
Qed.

(** Every turn of the loop returns, and it counts a skip or keeps a
    feature of positive rate. *)
Lemma iteration_outcome (st : loop_state) (row : date * Q) (tr : list effect) :
  exists st' tr',
    iteration requests_get data_frame st row tr = (Ok st', tr')
    /\ turn st st' /\ extends_quietly tr tr'.
Proof.
  destruct row as [d h].
  destruct (Z.lt_ge_cases (year d) MIN_IV_YEAR) as [Hy | Hy].
  - exists (skip st), tr. rewrite (iteration_early st d h tr Hy).
    split; [reflexivity |]. split; [constructor | apply extends_quietly_refl].
  - rewrite (iteration_eligible st d h tr Hy). unfold try_except.
    pose proof (try_body_turn st) as Hturn.
    pose proof (try_body_quiet st d h
                  (Format.iso_date (Calendar.add_days d (-4)))
                  (Format.iso_date (Calendar.add_days d 1))
                  (tr ++ [Print (ProcessingCrest d h)])) as Hquiet.
    destruct (try_body requests_get data_frame st d h _ _
                (tr ++ [Print (ProcessingCrest d h)]))
      as [[st' | e] tr'] eqn:E; simpl in Hquiet.
    + exists st', tr'. split; [reflexivity |]. split.
      * eapply Hturn. rewrite E. reflexivity.
      * apply (extends_quietly_trans tr (tr ++ [Print (ProcessingCrest d h)]));
          [apply extends_quietly_snoc; reflexivity | exact Hquiet].
    + exists (skip st), (tr' ++ [Print (ErrorFetching e)]).
      split; [reflexivity |]. split; [constructor |].
      apply (extends_quietly_trans tr (tr ++ [Print (ProcessingCrest d h)]));
        [apply extends_quietly_snoc; reflexivity |].
      apply (extends_quietly_trans _ tr'); [exact Hquiet |].
      apply extends_quietly_snoc. reflexivity.
Qed.

Lemma main_loop_cons (row : date * Q) (rows : list (date * Q))
  (st st' : loop_state) (tr tr' : list effect) :
  iteration requests_get data_frame st row tr = (Ok st', tr') ->
  main_loop requests_get data_frame (row :: rows) st tr
  = main_loop requests_get data_frame rows st' tr'.
Proof.
  intros H. simpl. unfold io_bind. rewrite H. reflexivity.
Qed.

(** The loop returns for every list of rows, and its final state is
    reached by one turn per row. *)
Lemma main_loop_outcome (rows : list (date * Q)) (st : loop_state)
  (tr : list effect) :
  exists st' tr',
    main_loop requests_get data_frame rows st tr = (Ok st', tr')
    /\ (valid_event_count st' + skipped_event_count st'
        = valid_event_count st + skipped_event_count st
          + Z.of_nat (List.length rows))%Z
    /\ (positive_rates st -> positive_rates st')
    /\ (counts_agree st -> counts_agree st')
    /\ extends_quietly tr tr'.
Proof.
  revert st tr. induction rows as [| row rows IH]; intros st tr.
  - exists st, tr. split; [reflexivity |].
    split; [simpl; lia |]. split; [auto |]. split; [auto |].
    apply extends_quietly_refl.
  - destruct (iteration_outcome st row tr) as [st1 [tr1 [Hstep [Hturn Hq1]]]].
    destruct (IH st1 tr1) as [st' [tr' [Hrun [Hsum [Hpos [Hcnt Hq]]]]]].
    exists st', tr'. rewrite (main_loop_cons row rows st st1 tr tr1 Hstep).
    split; [exact Hrun |].
    split; [pose proof (turn_tally st st1 Hturn); simpl List.length; lia |].
    split; [intros H; apply Hpos; exact (turn_positive_rates st st1 Hturn H) |].
    split; [intros H; apply Hcnt; exact (turn_counts_agree st st1 Hturn H) |].
    exact (extends_quietly_trans tr tr1 tr' Hq1 Hq).
Qed.

End Loop.

(** ** The orchestrator *)

Section Orchestrator.

Variable requests_get : nat -> string -> result response.
Variable data_frame : json -> result event_df.
Variable linregress_check : list Q -> list Q -> result unit.





Lemma counts_agree_no_results (st : loop_state) :
  counts_agree st -> valid_event_count st = 0%Z -> results st = [].
Proof.
  unfold counts_agree. intros H H0. rewrite H0 in H.
  destruct (results st); [reflexivity | simpl in H; lia].
Qed.

Lemma existsb_is_analysis_quiet (tr tr' : list effect) :
  extends_quietly tr tr' ->
  existsb is_analysis tr = false -> existsb is_analysis tr' = false.
Proof.
  intros [added [-> Hq]] H. rewrite existsb_app, H. simpl.
  induction added as [| e added IH]; [reflexivity |].
  simpl in *. apply andb_true_iff in Hq. destruct Hq as [He Hq].
  destruct (is_analysis e); [discriminate He |]. simpl. apply IH. exact Hq.
Qed.

(** C7: when the loop ends with no valid event, [main] prints the tally
    and that there is nothing to do, and returns; its trace holds no
    regression and no plot. *)
Theorem no_valid_event_no_analysis (table : list csv_row) (df : list crest_row)
  (st : loop_state) (tr1 : list effect) :
  parse_crest_csv table = Ok df ->
  main_loop requests_get data_frame (iterrows df) initial_state
    [Print (TotalEntries (List.length df)); Print FetchingBanner] = (Ok st, tr1) ->
  valid_event_count st = 0%Z ->
  main requests_get data_frame linregress_check table []
  = (Ok tt, tr1 ++ [Print (Tally 0 (skipped_event_count st)); Print NothingToDo])
  /\ existsb is_analysis (snd (main requests_get data_frame linregress_check table [])) = false.
Proof.
  intros Hparse Hrun Hzero.
  destruct (main_loop_outcome requests_get data_frame (iterrows df) initial_state
              [Print (TotalEntries (List.length df)); Print FetchingBanner])
    as [st' [tr' [Hrun' [_ [_ [Hcnt Hq]]]]]].
  rewrite Hrun in Hrun'. injection Hrun' as <- <-.
  assert (Hres : results st = []).
  { apply counts_agree_no_results; [apply Hcnt; reflexivity | exact Hzero]. }
  assert (Hmain : main requests_get data_frame linregress_check table []
                  = (Ok tt, tr1 ++ [Print (Tally 0 (skipped_event_count st));
                                    Print NothingToDo])).
  { unfold main, io_bind, lift. rewrite Hparse. simpl. rewrite Hrun.
    unfold report, io_bind. simpl. rewrite Hres, Hzero. simpl.
    unfold emit. rewrite <- app_assoc. reflexivity. }
  split; [exact Hmain |]. rewrite Hmain. simpl.
  rewrite existsb_app. simpl. rewrite orb_false_r.
  apply (existsb_is_analysis_quiet _ tr1 Hq). reflexivity.
Qed.

End Orchestrator.

(** ** The regression on points of a line *)

Section Line.

Local Open Scope R_scope.

Variables a b : R.







End Line.









(** ** Runs of the model *)




Lemma no_valid_event_no_analysis_witness :
  main (Service.always (mkResponse 200 (Some Service.rising)))
    Service.data_frame Service.rejects_identical_x table_1936 []
  = (Ok tt,
     [Print (TotalEntries 1); Print FetchingBanner]
     ++ [Print (Tally 0 (skipped_event_count (mkState [] 0 1)));
         Print NothingToDo])
  /\ existsb is_analysis
       (snd (main (Service.always (mkResponse 200 (Some Service.rising)))
               Service.data_frame Service.rejects_identical_x table_1936 []))
     = false.
Proof.
  apply (no_valid_event_no_analysis
           (Service.always (mkResponse 200 (Some Service.rising)))
           Service.data_frame Service.rejects_identical_x
           table_1936 frame_1936 (mkState [] 0 1)
           [Print (TotalEntries 1); Print FetchingBanner]).
  - reflexivity.
  - vm_compute. reflexivity.
  - reflexivity.
Defined.

(** The scenarios of the specification, run on the model. *)

(** Scenario A: a single crest of 1936 is parsed, skipped without a
    request, and the run ends with nothing to analyze. *)
Example scenario_A :
  main (Service.always (mkResponse 200 (Some Service.rising)))
    Service.data_frame Service.rejects_identical_x table_1936 []
  = (Ok tt, [Print (TotalEntries 1); Print FetchingBanner;
             Print (Tally 0 1); Print NothingToDo]).
Proof. vm_compute. reflexivity. Qed.

(** Scenario B: a rising limb that reaches 15.0 ft at 10:00 local time,
    0.8 ft above the hour before, yields one feature of rate 0.8. *)
Example scenario_B :
  exists f tr,
    main_loop (Service.always (mkResponse 200 (Some Service.rising)))
      Service.data_frame [(mkDate 2020 3 2, 2130 # 100)] initial_state []
    = (Ok (mkState [f] 1 0), tr)
    /\ rate_of_rise_per_hr f == 8 # 10
    /\ cross_time f = 1583078400%Z.
Proof.
  eexists. eexists. split; [vm_compute; reflexivity |].
  split; [vm_compute | ]; reflexivity.
Qed.

(** Scenario C: the service answers the first request with status 500;
    the crest is skipped and the next crest is processed. *)
Example scenario_C :
  exists f tr,
    main_loop Service.failing_once Service.data_frame (iterrows frame_2020)
      initial_state []
    = (Ok (mkState [f] 1 2), tr)
    /\ In (Print (ErrorFetching HTTPError)) tr
    /\ event_date f = mkDate 2005 4 15.
Proof.
  eexists. eexists. split; [vm_compute; reflexivity |].
  split; [simpl; tauto | reflexivity].
Qed.

(** A window that is above the stage from its first hour has no rate at
    the crossing and yields no feature. *)
Example first_hour_crossing_is_skipped :
  fst (main_loop (Service.always (mkResponse 200 (Some Service.already_high)))
         Service.data_frame [(mkDate 2020 3 2, 2130 # 100)] initial_state [])
  = Ok (mkState [] 0 1).
Proof. vm_compute. reflexivity. Qed.

(** The hourly frame of four observations: two in the first hour, one in
    the second, none in the third, one in the fourth. *)
Example hourly_example :
  Hourly.hourly [(0%Z, 14); (1800%Z, 14); (3600%Z, 15); (10800%Z, 18)]
  = [mkHourly 0 (Some ((14 + (14 + 0)) / 2)) None;
     mkHourly 3600 (Some ((15 + 0) / 1)) (Some ((15 + 0) / 1 - (14 + (14 + 0)) / 2));
     mkHourly 7200 None None;
     mkHourly 10800 (Some ((18 + 0) / 1)) None].
Proof. reflexivity. Qed.

Example iso_date_example : Format.iso_date (mkDate 2020 2 7) = "2020-02-07"%string.
Proof. reflexivity. Qed.

(** * Further properties of the code *)

(** ** The parser *)

Lemma extract_height_not_null (text : option string) (h : option Q) :
  extract_height text = Ok h ->
  not_null h = match text with
               | Some s => not_null (Regex.search_number s)
               | None => false
               end.
Proof.
  unfold extract_height. destruct text as [s |].
  - destruct (Regex.search_number s) as [tok |].
    + intros H. apply bind_ok in H. destruct H as [q [_ H]].
      injection H as <-. reflexivity.
    + intros H. injection H as <-. reflexivity.
  - intros H. injection H as <-. reflexivity.
Qed.

Lemma extract_date_not_null (text : option string) (d : option date) :
  extract_date text = Ok d ->
  not_null d = match text with
               | Some s => not_null (Regex.search_date s)
               | None => false
               end.
Proof.
  unfold extract_date. destruct text as [s |].
  - destruct (Regex.search_date s) as [tok |].
    + intros H. apply bind_ok in H. destruct H as [q [_ H]].
      injection H as <-. reflexivity.
    + intros H. injection H as <-. reflexivity.
  - intros H. injection H as <-. reflexivity.
Qed.

Lemma dropna_zip_sources (table : list csv_row) (hs : list (option Q))
  (ds : list (option date)) :
  Forall2 (fun a b => extract_height a = Ok b) (map height_str table) hs ->
  Forall2 (fun a b => extract_date a = Ok b) (map date_str table) ds ->
  map source (dropna (zip_columns table hs ds))
  = filter (fun row => (has_height_token row && has_date_token row)%bool) table.
Proof.
  revert hs ds. induction table as [| row table IH]; intros hs ds Hhs Hds.
  - reflexivity.
  - simpl in Hhs, Hds. inversion Hhs as [| ? h ? hs' Hh Hhs']; subst.
    inversion Hds as [| ? d ? ds' Hd Hds']; subst.
    unfold dropna in *. simpl.
    rewrite (extract_height_not_null _ h Hh), (extract_date_not_null _ d Hd).
    fold (has_height_token row). fold (has_date_token row).
    destruct (has_height_token row && has_date_token row)%bool; simpl;
      rewrite (IH hs' ds' Hhs' Hds'); reflexivity.
Qed.

(** When the parser returns on a table of ASCII texts, the rows of its
    frame are, in the order of the table, exactly the rows whose height
    text holds a run of digits and dots and whose date text holds the
    date pattern; rows with a missing cell or without a match are left
    out. *)
Theorem parse_crest_csv_rows (table : list csv_row) (df : list crest_row) :
  forallb ascii_row table = true ->
  parse_crest_csv table = Ok df ->
  map source df
  = filter (fun row => (has_height_token row && has_date_token row)%bool) table.
Proof.
  unfold parse_crest_csv. intros _ H.
  apply bind_ok in H. destruct H as [hs [Hhs H]].
  apply bind_ok in H. destruct H as [ds [Hds H]].
  injection H as <-.
  apply dropna_zip_sources; apply apply_ok; assumption.
Qed.

Lemma parse_crest_csv_rows_witness :
  map source [mkCrest (row_of "1" "34.70 ft" "on 02-01-1936")
                      (Some (3470 # 100)) (Some (mkDate 1936 2 1));
              mkCrest (row_of "5" "-21.30 ft" "on 03-02-2020 and 03-03-2020")
                      (Some (2130 # 100)) (Some (mkDate 2020 3 2))]
  = filter (fun row => (has_height_token row && has_date_token row)%bool)
           table_mixed.
Proof.
  apply (parse_crest_csv_rows table_mixed); reflexivity.
Defined.

Lemma apply_raise_in {A B : Type} (f : A -> result B) (col : list A) (e : exn) :
  apply f col = Raise e -> exists a, In a col /\ f a = Raise e.
Proof.
  induction col as [| x col IH]; simpl; [discriminate |].
  destruct (f x) as [b | e0] eqn:Hx; simpl.
  - destruct (apply f col) as [bs | e1]; simpl; [discriminate |].
    intros H. injection H as <-. destruct (IH eq_refl) as [a [Hin Ha]].
    exists a. auto.
  - intros H. injection H as <-. exists x. auto.
Qed.

Lemma python_float_raises (tok : string) (e : exn) :
  Decimal.python_float tok = Raise e -> e = ValueError.
Proof.
  unfold Decimal.python_float.
  destruct (Regex.drop_while Regex.is_digit tok) as [| c fp].
  - destruct (Decimal.is_empty _); intros H; [| discriminate H].
    injection H as <-. reflexivity.
  - destruct (_ && _ && _)%bool; intros H; [discriminate H |].
    injection H as <-. reflexivity.
Qed.

Lemma extract_height_raises (text : option string) (e : exn) :
  extract_height text = Raise e <->
  exists s tok,
    text = Some s /\ Regex.search_number s = Some tok
    /\ Decimal.python_float tok = Raise e.
Proof.
  unfold extract_height. split.
  - destruct text as [s |]; [| discriminate].
    destruct (Regex.search_number s) as [tok |] eqn:Htok; [| discriminate].
    destruct (Decimal.python_float tok) as [q | e0] eqn:Hq; simpl;
      [discriminate |].
    intros H. injection H as <-. exists s, tok. auto.
  - intros [s [tok [-> [Htok Hq]]]]. rewrite Htok, Hq. reflexivity.
Qed.

Lemma extract_date_raises (text : option string) (e : exn) :
  extract_date text = Raise e <->
  exists s tok,
    text = Some s /\ Regex.search_date s = Some tok
    /\ to_datetime tok = Raise e.
Proof.
  unfold extract_date. split.
  - destruct text as [s |]; [| discriminate].
    destruct (Regex.search_date s) as [tok |] eqn:Htok; [| discriminate].
    destruct (to_datetime tok) as [q | e0] eqn:Hq; simpl; [discriminate |].
    intros H. injection H as <-. exists s, tok. auto.
  - intros [s [tok [-> [Htok Hq]]]]. rewrite Htok, Hq. reflexivity.
Qed.

Lemma to_datetime_raises (tok : string) (e : exn) :
  to_datetime tok = Raise e -> e = ValueError.
Proof.
  unfold to_datetime. destruct (_ && _)%bool; intros H; [discriminate H |].
  injection H as <-. reflexivity.
Qed.

(** What makes the parser raise: a height token or a date token of some
    row that is rejected. *)
Lemma parse_crest_csv_raise_cause (table : list csv_row) (e : exn) :
  parse_crest_csv table = Raise e ->
  exists row, In row table
    /\ ((exists s tok, height_str row = Some s
                       /\ Regex.search_number s = Some tok
                       /\ Decimal.python_float tok = Raise e)
        \/ (exists s tok, date_str row = Some s
                          /\ Regex.search_date s = Some tok
                          /\ to_datetime tok = Raise e)).
Proof.
  unfold parse_crest_csv.
  destruct (apply extract_height (map height_str table)) as [hs | e1] eqn:Hhs;
    simpl.
  - destruct (apply extract_date (map date_str table)) as [ds | e2] eqn:Hds;
      simpl; [discriminate |].
    intros H. injection H as <-.
    apply apply_raise_in in Hds. destruct Hds as [text [Hin Htext]].
    apply in_map_iff in Hin. destruct Hin as [row [<- Hrow]].
    apply extract_date_raises in Htext.
    destruct Htext as [s [tok [Hs [Htok He]]]].
    exists row. split; [exact Hrow |]. right. exists s, tok. auto.
  - intros H. injection H as <-.
    apply apply_raise_in in Hhs. destruct Hhs as [text [Hin Htext]].
    apply in_map_iff in Hin. destruct Hin as [row [<- Hrow]].
    apply extract_height_raises in Htext.
    destruct Htext as [s [tok [Hs [Htok He]]]].
    exists row. split; [exact Hrow |]. left. exists s, tok. auto.
Qed.

Lemma parse_crest_csv_raises_value_error (table : list csv_row) (e : exn) :
  parse_crest_csv table = Raise e -> e = ValueError.
Proof.
  intros H. destruct (parse_crest_csv_raise_cause table e H)
    as [row [_ [Hh | Hd]]].
  - destruct Hh as [s [tok [_ [_ He]]]]. exact (python_float_raises tok e He).
  - destruct Hd as [s [tok [_ [_ He]]]]. exact (to_datetime_raises tok e He).
Qed.

(** On a table of ASCII texts the parser raises exactly when some row
    has a height text whose first run of digits and dots is not a
    number, or a date text whose first match of the pattern is not a
    date of the calendar that a pandas timestamp can hold; what it
    raises is a ValueError. *)
Theorem parse_crest_csv_raises_iff (table : list csv_row) :
  forallb ascii_row table = true ->
  ((exists e, parse_crest_csv table = Raise e) <->
   exists row, In row table
     /\ ((exists s tok e, height_str row = Some s
                          /\ Regex.search_number s = Some tok
                          /\ Decimal.python_float tok = Raise e)
         \/ (exists s tok e, date_str row = Some s
                             /\ Regex.search_date s = Some tok
                             /\ to_datetime tok = Raise e)))
  /\ (forall e, parse_crest_csv table = Raise e -> e = ValueError).
Proof.
  intros _. split; [split |].
  - intros [e H].
    destruct (parse_crest_csv_raise_cause table e H) as [row [Hrow [Hh | Hd]]];
      exists row; (split; [exact Hrow |]).
    + left. destruct Hh as [s [tok Hh]]. exists s, tok, e. exact Hh.
    + right. destruct Hd as [s [tok Hd]]. exists s, tok, e. exact Hd.
  - intros [row [Hrow [[s [tok [e [Hs [Htok He]]]]] | [s [tok [e [Hs [Htok He]]]]]]]].
    + exact (parse_crest_csv_raises table row s tok e Hrow Hs Htok He).
    + unfold parse_crest_csv.
      destruct (apply extract_height (map height_str table)) as [hs | e1];
        simpl; [| exists e1; reflexivity].
      assert (Hrow' : extract_date (date_str row) = Raise e).
      { apply extract_date_raises. exists s, tok. auto. }
      destruct (apply_raises_in extract_date (map date_str table)
                  (date_str row) e (in_map date_str table row Hrow) Hrow')
        as [e' He'].
      rewrite He'. exists e'. reflexivity.
  - exact (parse_crest_csv_raises_value_error table).
Qed.

Lemma parse_crest_csv_raises_iff_witness :
  ((exists e, parse_crest_csv table_dotted = Raise e) <->
   exists row, In row table_dotted
     /\ ((exists s tok e, height_str row = Some s
                          /\ Regex.search_number s = Some tok
                          /\ Decimal.python_float tok = Raise e)
         \/ (exists s tok e, date_str row = Some s
                             /\ Regex.search_date s = Some tok
                             /\ to_datetime tok = Raise e)))
  /\ (forall e, parse_crest_csv table_dotted = Raise e -> e = ValueError).
Proof.
  apply (parse_crest_csv_raises_iff table_dotted). reflexivity.
Defined.

Lemma zip_columns_in_date (df : list csv_row) (hs : list (option Q))
  (ds : list (option date)) (r : crest_row) :
  Forall2 (fun a b => extract_date a = Ok b) (map date_str df) ds ->
  In r (zip_columns df hs ds) ->
  extract_date (date_str (source r)) = Ok (crest_date r).
Proof.
  revert hs ds. induction df as [| row df IH]; intros hs ds Hds Hin.
  - destruct Hin.
  - destruct hs as [| h hs]; [destruct Hin |].
    destruct ds as [| d ds]; [destruct Hin |].
    simpl in Hds. inversion Hds; subst. destruct Hin as [<- | Hin].
    + simpl. assumption.
    + eapply IH; eassumption.
Qed.

Lemma valid_date_ranges (d : date) :
  Calendar.valid d = true ->
  (1 <= month d <= 12 /\ 1 <= day d <= 31 /\ 1 <= year d <= 9999)%Z.
Proof.
  unfold Calendar.valid. intros H.
  repeat (apply andb_true_iff in H; destruct H as [H ?]).
  repeat match goal with
         | h : (_ <=? _)%Z = true |- _ => apply Z.leb_le in h
         end.
  assert (Calendar.days_in_month (year d) (month d) <= 31)%Z.
  { unfold Calendar.days_in_month.
    destruct (month d =? 2)%Z;
      [destruct (Calendar.is_leap (year d)); lia |].
    destruct (_ || _ || _ || _)%bool; lia. }
  lia.
Qed.

(** Every row of the frame the parser returns has a crest date that is a
    date of the calendar: its month is between 1 and 12 and its day
    exists in that month of that year; it is the date the first match of
    the pattern in the date text denotes. *)
Theorem parse_crest_csv_dates_valid (table : list csv_row)
  (df : list crest_row) (r : crest_row) :
  parse_crest_csv table = Ok df -> In r df ->
  exists d s tok,
    crest_date r = Some d
    /\ date_str (source r) = Some s
    /\ Regex.search_date s = Some tok
    /\ to_datetime tok = Ok d
    /\ Calendar.valid d = true
    /\ (1 <= month d <= 12)%Z
    /\ (1 <= day d <= Calendar.days_in_month (year d) (month d))%Z.
Proof.
  unfold parse_crest_csv. intros H Hin.
  apply bind_ok in H. destruct H as [hs [_ H]].
  apply bind_ok in H. destruct H as [ds [Hds H]].
  injection H as <-. apply dropna_not_null in Hin.
  destruct Hin as [Hin [_ Hd]]. apply apply_ok in Hds.
  pose proof (zip_columns_in_date table hs ds r Hds Hin) as Hx.
  destruct (crest_date r) as [d |]; [| congruence].
  unfold extract_date in Hx.
  destruct (date_str (source r)) as [s |] eqn:Hs; [| discriminate Hx].
  destruct (Regex.search_date s) as [tok |] eqn:Hm; [| discriminate Hx].
  apply bind_ok in Hx. destruct Hx as [d' [Htok Hx]].
  injection Hx as ->.
  assert (Hv : Calendar.valid d = true).
  { unfold to_datetime in Htok.
    destruct (_ && _)%bool eqn:Hv; [| discriminate Htok].
    injection Htok as <-. apply andb_true_iff in Hv. apply Hv. }
  pose proof (valid_date_ranges d Hv) as Hr.
  assert (Hday : (day d <= Calendar.days_in_month (year d) (month d))%Z).
  { unfold Calendar.valid in Hv. apply andb_true_iff in Hv.
    destruct Hv as [_ Hv]. apply Z.leb_le. exact Hv. }
  exists d, s, tok.
  repeat split; try assumption; try reflexivity; lia.
Qed.

Lemma parse_crest_csv_dates_valid_witness :
  exists d s tok,
    crest_date (mkCrest (row_of "1" "34.70 ft" "on 02-01-1936")
                        (Some (3470 # 100)) (Some (mkDate 1936 2 1))) = Some d
    /\ date_str (source (mkCrest (row_of "1" "34.70 ft" "on 02-01-1936")
                           (Some (3470 # 100)) (Some (mkDate 1936 2 1))))
       = Some s
    /\ Regex.search_date s = Some tok
    /\ to_datetime tok = Ok d
    /\ Calendar.valid d = true
    /\ (1 <= month d <= 12)%Z
    /\ (1 <= day d <= Calendar.days_in_month (year d) (month d))%Z.
Proof.
  apply (parse_crest_csv_dates_valid table_1936 frame_1936).
  - reflexivity.
  - simpl. left. reflexivity.
Defined.

(** *** The token the height pattern finds *)

Lemma take_while_run (p : ascii -> bool) (tok post : string) :
  Regex.all_chars p tok = true -> stops p post = true ->
  Regex.take_while p (tok ++ post) = tok.
Proof.
  intros Htok Hpost. induction tok as [| c tok IH]; simpl in *.
  - destruct post as [| c post]; [reflexivity |].
    simpl in *. destruct (p c); [discriminate Hpost | reflexivity].
  - apply andb_true_iff in Htok. destruct Htok as [Hc Htok].
    rewrite Hc, (IH Htok). reflexivity.
Qed.

Lemma drop_while_run (p : ascii -> bool) (tok post : string) :
  Regex.all_chars p tok = true -> stops p post = true ->
  Regex.drop_while p (tok ++ post) = post.
Proof.
  intros Htok Hpost. induction tok as [| c tok IH]; simpl in *.
  - destruct post as [| c post]; [reflexivity |].
    simpl in *. destruct (p c); [discriminate Hpost | reflexivity].
  - apply andb_true_iff in Htok. destruct Htok as [Hc Htok].
    rewrite Hc. exact (IH Htok).
Qed.

(** The pattern skips a prefix without digit or dot and matches the
    whole run that follows. *)
Lemma search_number_run (pre tok post : string) :
  Regex.all_chars (fun c => negb (Regex.is_num_char c)) pre = true ->
  Regex.all_chars Regex.is_num_char tok = true ->
  Decimal.is_empty tok = false ->
  stops Regex.is_num_char post = true ->
  Regex.search_number (pre ++ tok ++ post) = Some tok.
Proof.
  intros Hpre Htok Hne Hpost. induction pre as [| c pre IH]; simpl in *.
  - destruct tok as [| c tok]; [discriminate Hne |]. simpl in *.
    apply andb_true_iff in Htok. destruct Htok as [Hc Htok].
    rewrite Hc, (take_while_run _ tok post Htok Hpost). reflexivity.
  - apply andb_true_iff in Hpre. destruct Hpre as [Hc Hpre].
    apply negb_true_iff in Hc. rewrite Hc. exact (IH Hpre).
Qed.

Lemma digits_are_num_chars (s : string) :
  Regex.all_chars Regex.is_digit s = true ->
  Regex.all_chars Regex.is_num_char s = true.
Proof.
  induction s as [| c s IH]; simpl; [reflexivity |]. intros H.
  apply andb_true_iff in H. destruct H as [Hc H].
  rewrite (IH H). unfold Regex.is_num_char. rewrite Hc. reflexivity.
Qed.

Lemma dot_is_no_digit : Regex.is_digit "." = false.
Proof. reflexivity. Qed.

(** [float] on a token [ip.fp] of digits: the decimal it writes. *)
Lemma python_float_decimal (ip fp : string) :
  Regex.all_chars Regex.is_digit ip = true ->
  Regex.all_chars Regex.is_digit fp = true ->
  (Decimal.is_empty ip && Decimal.is_empty fp)%bool = false ->
  Decimal.python_float (ip ++ String "." fp)
  = Ok (Qmake (Decimal.digits_value (ip ++ fp))
              (Z.to_pos (10 ^ Z.of_nat (String.length fp)))).
Proof.
  intros Hip Hfp Hne. unfold Decimal.python_float.
  assert (Hstop : stops Regex.is_digit (String "." fp) = true) by reflexivity.
  rewrite (take_while_run _ ip _ Hip Hstop), (drop_while_run _ ip _ Hip Hstop).
  rewrite Hfp, Hne. reflexivity.
Qed.

(** The height is the first decimal number of an ASCII text: whatever
    precedes it holds no digit or dot, and what follows it, numbers
    included, is ignored. *)
Theorem extract_height_first_number (pre ip fp post : string) :
  is_ascii_text (pre ++ (ip ++ String "." fp) ++ post) = true ->
  Regex.all_chars (fun c => negb (Regex.is_num_char c)) pre = true ->
  Regex.all_chars Regex.is_digit ip = true ->
  Regex.all_chars Regex.is_digit fp = true ->
  (Decimal.is_empty ip && Decimal.is_empty fp)%bool = false ->
  stops Regex.is_num_char post = true ->
  extract_height (Some (pre ++ (ip ++ String "." fp) ++ post)%string)
  = Ok (Some (Qmake (Decimal.digits_value (ip ++ fp))
                    (Z.to_pos (10 ^ Z.of_nat (String.length fp))))).
Proof.
  intros _ Hpre Hip Hfp Hne Hpost. unfold extract_height.
  rewrite (search_number_run pre (ip ++ String "." fp) post Hpre).
  - rewrite (python_float_decimal ip fp Hip Hfp Hne). reflexivity.
  - apply all_chars_app; [apply digits_are_num_chars; exact Hip |].
    simpl. rewrite (digits_are_num_chars fp Hfp). reflexivity.
  - destruct ip; reflexivity.
  - exact Hpost.
Qed.

Lemma extract_height_first_number_witness :
  extract_height
    (Some ("about " ++ ("34" ++ String "." "70")
           ++ " ft (2nd highest, 33.10 ft in 1983)")%string)
  = Ok (Some (Qmake (Decimal.digits_value ("34" ++ "70"))
                    (Z.to_pos (10 ^ Z.of_nat (String.length "70"))))).
Proof.
  apply (extract_height_first_number
           "about " "34" "70" " ft (2nd highest, 33.10 ft in 1983)");
    reflexivity.
Defined.

(** ** The fetcher *)

Section FetcherShapes.

Variable requests_get : nat -> string -> result response.
Variable data_frame : json -> result event_df.

(** Of a body of the documented shape the fetcher reads the first block
    of values of the first time series and nothing else: the other time
    series and the other blocks do not matter. *)
Theorem fetch_usgs_iv_first_block (station_id start_dt end_dt : string)
  (tr : list effect) (r : response)
  (fields inner series block : list (string * json))
  (other_series other_blocks : list json) (ts_data : json) :
  requests_get (requests_sent tr) (iv_url station_id start_dt end_dt) = Ok r ->
  ~ error_status r ->
  body r = Some (JObject fields) ->
  Py.lookup "value" fields = Some (JObject inner) ->
  Py.lookup "timeSeries" inner = Some (JArray (JObject series :: other_series)) ->
  Py.lookup "values" series = Some (JArray (JObject block :: other_blocks)) ->
  Py.lookup "value" block = Some ts_data ->
  fst (fetch_usgs_iv requests_get data_frame station_id start_dt end_dt tr)
  = data_frame ts_data.
Proof.
  intros Hr Hs Hb Hv Hts Hvals Hdata.
  rewrite fetch_usgs_iv_result, Hr. simpl.
  unfold read_response, response_json.
  rewrite (raise_for_status_ok r Hs), Hb. simpl.
  rewrite Hv. simpl. rewrite Hts. simpl. rewrite Hvals. simpl.
  rewrite Hdata. reflexivity.
Qed.

(** A ["timeSeries"] entry that is present but falsy in Python (null,
    false, 0, an empty text, an empty list or an empty object) is taken
    for "no data": the fetcher returns the empty frame. *)
Theorem fetch_usgs_iv_falsy_series (station_id start_dt end_dt : string)
  (tr : list effect) (r : response) (fields inner : list (string * json))
  (ts_list : json) :
  requests_get (requests_sent tr) (iv_url station_id start_dt end_dt) = Ok r ->
  ~ error_status r ->
  body r = Some (JObject fields) ->
  Py.lookup "value" fields = Some (JObject inner) ->
  Py.lookup "timeSeries" inner = Some ts_list ->
  Py.truthy ts_list = false ->
  fst (fetch_usgs_iv requests_get data_frame station_id start_dt end_dt tr)
  = Ok [].
Proof.
  intros Hr Hs Hb Hv Hts Hfalsy.
  rewrite fetch_usgs_iv_result, Hr. simpl.
  unfold read_response, response_json.
  rewrite (raise_for_status_ok r Hs), Hb. simpl.
  rewrite Hv. simpl. rewrite Hts. simpl. rewrite Hfalsy. reflexivity.
Qed.

(** The exceptions of a JSON body of another shape: a body that is not an
    object, or whose ["value"] entry is present and not an object, raises
    an AttributeError (the default of [get] only covers a missing key);
    a first time series without ["values"] raises a KeyError; an empty
    list of blocks raises an IndexError. *)
Theorem fetch_usgs_iv_shape_errors (station_id start_dt end_dt : string)
  (tr : list effect) (r : response) (data : json) :
  requests_get (requests_sent tr) (iv_url station_id start_dt end_dt) = Ok r ->
  ~ error_status r ->
  body r = Some data ->
  (is_object data = false ->
   fst (fetch_usgs_iv requests_get data_frame station_id start_dt end_dt tr)
   = Raise AttributeError)
  /\ (forall fields v,
        data = JObject fields -> Py.lookup "value" fields = Some v ->
        is_object v = false ->
        fst (fetch_usgs_iv requests_get data_frame station_id start_dt end_dt tr)
        = Raise AttributeError)
  /\ (forall fields inner series others,
        data = JObject fields ->
        Py.lookup "value" fields = Some (JObject inner) ->
        Py.lookup "timeSeries" inner = Some (JArray (JObject series :: others)) ->
        (Py.lookup "values" series = None ->
         fst (fetch_usgs_iv requests_get data_frame
                station_id start_dt end_dt tr) = Raise KeyError)
        /\ (Py.lookup "values" series = Some (JArray []) ->
            fst (fetch_usgs_iv requests_get data_frame
                   station_id start_dt end_dt tr) = Raise IndexError)).
Proof.
  intros Hr Hs Hb.
  rewrite fetch_usgs_iv_result, Hr. simpl.
  unfold read_response, response_json.
  rewrite (raise_for_status_ok r Hs), Hb. simpl.
  split; [| split].
  - destruct data; simpl; intros H; try reflexivity; discriminate H.
  - intros fields v -> Hv Hobj. simpl. rewrite Hv. simpl.
    destruct v; simpl; try reflexivity; discriminate Hobj.
  - intros fields inner series others -> Hv Hts. simpl.
    rewrite Hv. simpl. rewrite Hts. simpl.
    split; intros Hvals; rewrite Hvals; reflexivity.
Qed.

End FetcherShapes.

Lemma fetch_usgs_iv_first_block_witness :
  fst (fetch_usgs_iv (Service.always (mkResponse 200 (Some two_series)))
         Service.data_frame STATION_ID "2020-02-27" "2020-03-03" [])
  = Service.data_frame
      (JArray [Service.reading "2020-03-01T08:00:00.000-06:00" "13.4"]).
Proof.
  eapply (fetch_usgs_iv_first_block
            (Service.always (mkResponse 200 (Some two_series)))
            Service.data_frame STATION_ID "2020-02-27" "2020-03-03" []
            (mkResponse 200 (Some two_series))).
  - reflexivity.
  - unfold error_status. simpl. lia.
  - reflexivity.
  - reflexivity.
  - reflexivity.
  - reflexivity.
  - reflexivity.
Defined.

Lemma fetch_usgs_iv_falsy_series_witness :
  fst (fetch_usgs_iv (Service.always (mkResponse 200 (Some null_series)))
         Service.data_frame STATION_ID "2020-02-27" "2020-03-03" [])
  = Ok [].
Proof.
  eapply (fetch_usgs_iv_falsy_series
            (Service.always (mkResponse 200 (Some null_series)))
            Service.data_frame STATION_ID "2020-02-27" "2020-03-03" []
            (mkResponse 200 (Some null_series))).
  - reflexivity.
  - unfold error_status. simpl. lia.
  - reflexivity.
  - reflexivity.
  - reflexivity.
  - reflexivity.
Defined.

Lemma fetch_usgs_iv_shape_errors_witness :
  fst (fetch_usgs_iv (Service.always (mkResponse 200 (Some null_value)))
         Service.data_frame STATION_ID "2020-02-27" "2020-03-03" [])
  = Raise AttributeError.
Proof.
  eapply (fetch_usgs_iv_shape_errors
            (Service.always (mkResponse 200 (Some null_value)))
            Service.data_frame STATION_ID "2020-02-27" "2020-03-03" []
            (mkResponse 200 (Some null_value)) null_value).
  - reflexivity.
  - unfold error_status. simpl. lia.
  - reflexivity.
  - reflexivity.
  - reflexivity.
  - reflexivity.
Defined.

(** ** The hourly frame *)

Lemma hourly_rows_from (event : event_df) :
  Hourly.hourly event = rows_from (hour_mean event) None (Hourly.labels event).
Proof.
  unfold Hourly.hourly, Hourly.resample_mean, Hourly.diff.
  generalize (@None Q) as prev.
  induction (Hourly.labels event) as [| l ls IH]; intros prev; [reflexivity |].
  simpl. rewrite IH. reflexivity.
Qed.

Lemma progression_contiguous (lo : Z) (n s : nat) :
  contiguous (lo + 3600 * Z.of_nat s)
    (map (fun k => (lo + 3600 * Z.of_nat k)%Z) (seq s n)).
Proof.
  revert s. induction n as [| n IH]; intros s; cbn [contiguous map seq];
    [exact I |].
  split; [reflexivity |].
  replace (lo + 3600 * Z.of_nat s + 3600)%Z
    with (lo + 3600 * Z.of_nat (S s))%Z by lia.
  apply IH.
Qed.

(** The labels of the hourly frame are consecutive hours, beginning with
    the hour of the earliest observation. *)
Lemma labels_contiguous (event : event_df) (l : Z) (ls : list Z) :
  Hourly.labels event = l :: ls -> contiguous l (l :: ls).
Proof.
  unfold Hourly.labels.
  destruct (map (fun row => Hourly.floor_hour (fst row)) event) as [| h hs];
    [discriminate |].
  intros H.
  pose proof (progression_contiguous (Hourly.minimum h hs)
                (S (Z.to_nat ((Hourly.maximum h hs - Hourly.minimum h hs) / 3600)))
                0) as Hc.
  rewrite H in Hc. simpl in H. injection H as Hl _.
  replace (Hourly.minimum h hs + 3600 * Z.of_nat 0)%Z with l in Hc by lia.
  exact Hc.
Qed.

Lemma contiguous_lower (ls : list Z) (l x : Z) :
  contiguous l ls -> In x ls -> (l <= x)%Z.
Proof.
  revert l. induction ls as [| y ls IH]; intros l Hc Hin; [destruct Hin |].
  destruct Hc as [-> Hc]. destruct Hin as [<- | Hin]; [lia |].
  specialize (IH _ Hc Hin). lia.
Qed.

Lemma contiguous_previous (ls : list Z) (l x : Z) :
  contiguous l ls -> In x ls -> x <> l -> In (x - 3600)%Z ls.
Proof.
  revert l. induction ls as [| y ls IH]; intros l Hc Hin Hne; [destruct Hin |].
  destruct Hc as [-> Hc]. destruct Hin as [<- | Hin]; [congruence |].
  destruct (Z.eq_dec x (l + 3600)) as [-> | Hx].
  - left. lia.
  - right. exact (IH _ Hc Hin Hx).
Qed.

Lemma rows_from_in (g : Z -> option Q) (ls : list Z) (prev : option Q)
  (row : hourly_row) :
  In row (rows_from g prev ls) -> In (bucket row) ls /\ value row = g (bucket row).
Proof.
  revert prev. induction ls as [| l ls IH]; intros prev Hin; [destruct Hin |].
  destruct Hin as [<- | Hin]; simpl.
  - auto.
  - destruct (IH _ Hin). auto.
Qed.

Lemma rows_from_label (g : Z -> option Q) (ls : list Z) (prev : option Q)
  (x : Z) :
  In x ls -> exists row, In row (rows_from g prev ls) /\ bucket row = x.
Proof.
  revert prev. induction ls as [| l ls IH]; intros prev Hin; [destruct Hin |].
  destruct Hin as [-> | Hin].
  - eexists. split; [left; reflexivity | reflexivity].
  - destruct (IH (g l) Hin) as [row [Hrow Hb]].
    exists row. split; [right; exact Hrow | exact Hb].
Qed.

(** The rate read at a label of the frame: the mean of that hour minus
    the mean of the hour before (the value before the frame for its
    first label). *)
Lemma loc_rate_rows_from (g : Z -> option Q) (ls : list Z) (l c : Z)
  (prev : option Q) :
  contiguous l ls -> In c ls ->
  Hourly.loc_rate (rows_from g prev ls) c
  = Ok (Hourly.minus (g c) (if (c =? l)%Z then prev else g (c - 3600)%Z)).
Proof.
  revert l prev. induction ls as [| y ls IH]; intros l prev Hc Hin;
    [destruct Hin |].
  destruct Hc as [-> Hc]. unfold Hourly.loc_rate. simpl.
  destruct (l =? c)%Z eqn:E.
  - apply Z.eqb_eq in E. subst c. rewrite Z.eqb_refl. reflexivity.
  - apply Z.eqb_neq in E. destruct Hin as [-> | Hin]; [congruence |].
    specialize (IH _ (g l) Hc Hin). unfold Hourly.loc_rate in IH. rewrite IH.
    assert (Hcl : (c =? l)%Z = false) by (apply Z.eqb_neq; congruence).
    rewrite Hcl. destruct (c =? l + 3600)%Z eqn:E2; [| reflexivity].
    apply Z.eqb_eq in E2. subst c.
    replace (l + 3600 - 3600)%Z with l by lia. reflexivity.
Qed.

Lemma labels_first_is_least (event : event_df) (l : Z) (ls : list Z)
  (row : Z * Q) :
  Hourly.labels event = l :: ls -> In row event ->
  (l <= Hourly.floor_hour (fst row))%Z.
Proof.
  unfold Hourly.labels. intros H Hin.
  apply (in_map (fun row => Hourly.floor_hour (fst row))) in Hin.
  destruct (map (fun row => Hourly.floor_hour (fst row)) event) as [| h hs];
    [destruct Hin |].
  simpl in H. injection H as Hl _.
  replace l with (Hourly.minimum h hs) by lia.
  destruct Hin as [<- | Hin];
    [apply minimum_le_head | apply minimum_le_in; exact Hin].
Qed.

Lemma hour_mean_none (event : event_df) (b : Z) :
  (forall row, In row event -> Hourly.floor_hour (fst row) <> b) ->
  hour_mean event b = None.
Proof.
  intros H. unfold hour_mean, Hourly.bucket_values.
  assert (Hnil : filter (Hourly.in_bucket b) event = []).
  { induction event as [| row event IH]; [reflexivity |].
    simpl. unfold Hourly.in_bucket at 1.
    destruct (Hourly.floor_hour (fst row) =? b)%Z eqn:E.
    - apply Z.eqb_eq in E. destruct (H row (or_introl eq_refl) E).
    - apply IH. intros r Hr. apply H. right. exact Hr. }
  rewrite Hnil. reflexivity.
Qed.

(** The rate read at the crossing is the mean of the crossing hour minus
    the mean of the hour before it; the crossing hour is at or above the
    reference stage and the hour before it is not (it is below the stage
    or has no observation). *)
Lemma rate_at_crossing (event : event_df) (c : Z) :
  Hourly.crossed_idx (Hourly.hourly event) = Some c ->
  Hourly.loc_rate (Hourly.hourly event) c
  = Ok (Hourly.minus (hour_mean event c) (hour_mean event (c - 3600)))
  /\ Hourly.reaches_stage (hour_mean event c) = true
  /\ Hourly.reaches_stage (hour_mean event (c - 3600)) = false.
Proof.
  rewrite hourly_rows_from. intros Hc.
  destruct (Hourly.labels event) as [| l ls] eqn:Hl; [discriminate Hc |].
  pose proof (labels_contiguous event l ls Hl) as Hcont.
  apply crossed_idx_some in Hc.
  destruct Hc as [[row [Hrow [Hb Hreach]]] Hmin].
  unfold at_or_above_stage in Hreach.
  destruct (rows_from_in _ _ _ _ Hrow) as [Hin Hval].
  rewrite Hb in Hin, Hval. rewrite Hval in Hreach.
  rewrite (loc_rate_rows_from (hour_mean event) (l :: ls) l c None Hcont Hin).
  destruct (c =? l)%Z eqn:E.
  - apply Z.eqb_eq in E.
    assert (Hnone : hour_mean event (c - 3600) = None).
    { apply hour_mean_none. intros r Hr.
      pose proof (labels_first_is_least event l ls r Hl Hr). lia. }
    rewrite Hnone. auto.
  - apply Z.eqb_neq in E.
    pose proof (contiguous_previous _ _ _ Hcont Hin E) as Hprev.
    destruct (rows_from_label (hour_mean event) (l :: ls) None _ Hprev)
      as [row' [Hrow' Hb']].
    destruct (rows_from_in _ _ _ _ Hrow') as [_ Hval'].
    rewrite Hb' in Hval'.
    split; [reflexivity |]. split; [exact Hreach |].
    destruct (Hourly.reaches_stage (hour_mean event (c - 3600))) eqn:Hp;
      [| reflexivity].
    assert (Habove : at_or_above_stage row').
    { unfold at_or_above_stage. rewrite Hval'. exact Hp. }
    specialize (Hmin row' Hrow' Habove). lia.
Qed.

Lemma rate_between_hours (p q : Q) :
  Hourly.reaches_stage (Some q) = true ->
  Hourly.reaches_stage (Some p) = false ->
  p < REFERENCE_STAGE /\ REFERENCE_STAGE <= q /\ 0 < q - p.
Proof.
  simpl. intros Hq Hp. apply Qle_bool_iff in Hq.
  assert (Hlt : p < REFERENCE_STAGE).
  { apply Qnot_le_lt. intros Hle. apply Qle_bool_iff in Hle. congruence. }
  split; [exact Hlt |]. split; [exact Hq |].
  unfold Qminus. rewrite <- Qlt_minus_iff.
  exact (Qlt_le_trans _ _ _ Hlt Hq).
Qed.

(** A rate that is defined at the crossing is strictly positive: the
    hour before the crossing is below the stage and the crossing hour is
    not.  The test [rate <= 0] of the loop can therefore only reject an
    undefined rate. *)
Theorem defined_rate_at_crossing_is_positive (event : event_df) (c : Z) (r : Q) :
  Hourly.crossed_idx (Hourly.hourly event) = Some c ->
  Hourly.loc_rate (Hourly.hourly event) c = Ok (Some r) ->
  0 < r /\ Qle_bool r 0 = false.
Proof.
  intros Hc Hr. destruct (rate_at_crossing event c Hc) as [Hrate [Hq Hp]].
  rewrite Hrate in Hr. apply ok_injective in Hr.
  destruct (hour_mean event c) as [q |]; [| discriminate Hr].
  destruct (hour_mean event (c - 3600)) as [p |]; [| discriminate Hr].
  simpl in Hr. injection Hr as <-.
  destruct (rate_between_hours p q Hq Hp) as [_ [_ Hpos]].
  split; [exact Hpos |].
  destruct (Qle_bool (q - p) 0) eqn:E; [| reflexivity].
  apply Qle_bool_iff in E. exfalso. exact (Qlt_not_le _ _ Hpos E).
Qed.

(** The rate of a kept feature is the mean of the hour of its crossing
    time minus the mean of the hour before, and that earlier mean lies
    below the reference stage. *)
Theorem kept_feature_rate (st : loop_state) (d : date) (h : Q)
  (event : event_df) (tr : list effect) (f : event_feature) :
  fst (process_event st d h event tr) = Ok (keep st f) ->
  exists p q,
    hour_mean event (cross_time f) = Some q
    /\ hour_mean event (cross_time f - 3600) = Some p
    /\ p < REFERENCE_STAGE /\ REFERENCE_STAGE <= q
    /\ rate_of_rise_per_hr f = q - p
    /\ event_date f = d /\ event_height f = h.
Proof.
  rewrite process_event_result.
  destruct event as [| row0 event];
    [intros H; apply ok_injective in H; destruct (skip_is_not_keep st f H) |].
  destruct (Hourly.crossed_idx _) as [c |] eqn:Hc;
    [| intros H; apply ok_injective in H; destruct (skip_is_not_keep st f H)].
  destruct (rate_at_crossing _ c Hc) as [Hrate [Hq Hp]].
  rewrite Hrate.
  destruct (hour_mean (row0 :: event) c) as [q |] eqn:Hcur;
    [| intros H; apply ok_injective in H; destruct (skip_is_not_keep st f H)].
  destruct (hour_mean (row0 :: event) (c - 3600)) as [p |] eqn:Hprev;
    [| intros H; apply ok_injective in H; destruct (skip_is_not_keep st f H)].
  simpl.
  destruct (Qle_bool (q - p) 0);
    intros H; apply ok_injective in H; [destruct (skip_is_not_keep st f H) |].
  apply keep_injective in H. subst f. simpl.
  destruct (rate_between_hours p q Hq Hp) as [Hlt [Hge _]].
  exists p, q. rewrite Hprev, Hcur. repeat split; auto.
Qed.

(** An event whose crossing hour follows an hour without observation
    yields no feature; in particular an event whose first hour is
    already at or above the reference stage yields none. *)
Theorem crossing_after_gap_is_skipped (st : loop_state) (d : date) (h : Q)
  (event : event_df) (tr : list effect) (c : Z) :
  Hourly.crossed_idx (Hourly.hourly event) = Some c ->
  (hour_mean event (c - 3600) = None ->
   fst (process_event st d h event tr) = Ok (skip st))
  /\ (forall ls, Hourly.labels event = c :: ls ->
      fst (process_event st d h event tr) = Ok (skip st)).
Proof.
  intros Hc. destruct (rate_at_crossing event c Hc) as [Hrate _].
  assert (Hskip : hour_mean event (c - 3600) = None ->
                  fst (process_event st d h event tr) = Ok (skip st)).
  { intros Hnone. rewrite process_event_result, Hc, Hrate, Hnone.
    destruct event; [reflexivity |].
    destruct (hour_mean _ c); reflexivity. }
  split; [exact Hskip |].
  intros ls Hl. apply Hskip. apply hour_mean_none. intros r Hr.
  pose proof (labels_first_is_least event c ls r Hl Hr). lia.
Qed.

Lemma defined_rate_at_crossing_is_positive_witness :
  0 < 80 # 100 /\ Qle_bool (80 # 100) 0 = false.
Proof.
  apply (defined_rate_at_crossing_is_positive rising_frame 1583078400).
  - vm_compute. reflexivity.
  - vm_compute. reflexivity.
Defined.

Lemma kept_feature_rate_witness :
  exists p q,
    hour_mean rising_frame (cross_time rising_feature) = Some q
    /\ hour_mean rising_frame (cross_time rising_feature - 3600) = Some p
    /\ p < REFERENCE_STAGE /\ REFERENCE_STAGE <= q
    /\ rate_of_rise_per_hr rising_feature = q - p
    /\ event_date rising_feature = mkDate 2020 3 2
    /\ event_height rising_feature = 2130 # 100.
Proof.
  apply (kept_feature_rate initial_state (mkDate 2020 3 2) (2130 # 100)
           rising_frame [] rising_feature).
  vm_compute. reflexivity.
Defined.

Lemma crossing_after_gap_is_skipped_witness :
  (hour_mean gap_before_crossing (1583078400 - 3600) = None ->
   fst (process_event initial_state (mkDate 2020 3 2) (2130 # 100)
          gap_before_crossing []) = Ok (skip initial_state))
  /\ (forall ls, Hourly.labels gap_before_crossing = 1583078400%Z :: ls ->
      fst (process_event initial_state (mkDate 2020 3 2) (2130 # 100)
             gap_before_crossing []) = Ok (skip initial_state)).
Proof.
  apply (crossing_after_gap_is_skipped initial_state (mkDate 2020 3 2)
           (2130 # 100) gap_before_crossing [] 1583078400).
  vm_compute. reflexivity.
Defined.

(** *** Readings below the stage *)

Lemma sum_at_most (c : Q) (vs : list Q) :
  (forall v, In v vs -> v < c) ->
  Hourly.sum vs <= c * inject_Z (Z.of_nat (List.length vs)).
Proof.
  unfold Hourly.sum. induction vs as [| v vs IH]; intros H.
  - simpl. rewrite Qmult_0_r. apply Qle_refl.
  - change (List.length (v :: vs)) with (S (List.length vs)).
    rewrite Nat2Z.inj_succ. unfold Z.succ. rewrite inject_Z_plus.
    simpl fold_right.
    assert (Hv : v < c) by (apply H; left; reflexivity).
    assert (Hrest : fold_right Qplus 0 vs
                    <= c * inject_Z (Z.of_nat (List.length vs))).
    { apply IH. intros w Hw. apply H. right. exact Hw. }
    rewrite Qmult_plus_distr_r, Qmult_1_r, Qplus_comm.
    apply Qplus_le_compat; [exact Hrest | apply Qlt_le_weak; exact Hv].
Qed.

Lemma sum_below (c : Q) (v : Q) (vs : list Q) :
  (forall w, In w (v :: vs) -> w < c) ->
  Hourly.sum (v :: vs) < c * inject_Z (Z.of_nat (List.length (v :: vs))).
Proof.
  intros H.
  change (List.length (v :: vs)) with (S (List.length vs)).
  rewrite Nat2Z.inj_succ. unfold Z.succ. rewrite inject_Z_plus.
  unfold Hourly.sum. simpl fold_right.
  assert (Hv : v < c) by (apply H; left; reflexivity).
  assert (Hrest : Hourly.sum vs <= c * inject_Z (Z.of_nat (List.length vs))).
  { apply sum_at_most. intros w Hw. apply H. right. exact Hw. }
  unfold Hourly.sum in Hrest.
  rewrite Qmult_plus_distr_r, Qmult_1_r, (Qplus_comm (c * _) c).
  apply Qplus_lt_le_compat; assumption.
Qed.

(** The mean of readings that are all below a level is below it. *)
Lemma mean_below (c : Q) (vs : list Q) (m : Q) :
  (forall v, In v vs -> v < c) -> Hourly.mean vs = Some m -> m < c.
Proof.
  intros H. unfold Hourly.mean. destruct vs as [| v vs]; [discriminate |].
  intros Hm. injection Hm as <-.
  apply Qlt_shift_div_r.
  - change 0 with (inject_Z 0). rewrite <- Zlt_Qlt.
    change (List.length (v :: vs)) with (S (List.length vs)). lia.
  - apply sum_below. exact H.
Qed.

(** When every reading of the window is below the reference stage, no
    hour reaches it and the event yields no feature. *)
Theorem readings_below_stage_are_skipped (st : loop_state) (d : date) (h : Q)
  (event : event_df) (tr : list effect) :
  (forall row, In row event -> snd row < REFERENCE_STAGE) ->
  Hourly.crossed_idx (Hourly.hourly event) = None
  /\ fst (process_event st d h event tr) = Ok (skip st).
Proof.
  intros Hlow.
  assert (Hc : Hourly.crossed_idx (Hourly.hourly event) = None).
  { apply crossed_idx_none. intros row Hrow.
    rewrite (hourly_row_mean event row Hrow).
    destruct (Hourly.mean _) as [m |] eqn:Hm; [| reflexivity].
    assert (Hlt : m < REFERENCE_STAGE).
    { apply (mean_below _ _ _) with (2 := Hm).
      unfold Hourly.bucket_values. intros v Hv.
      apply in_map_iff in Hv. destruct Hv as [r [<- Hr]].
      apply filter_In in Hr. apply Hlow. apply Hr. }
    simpl. destruct (Qle_bool REFERENCE_STAGE m) eqn:E; [| reflexivity].
    apply Qle_bool_iff in E. exfalso. exact (Qlt_not_le _ _ Hlt E). }
  split; [exact Hc |].
  rewrite process_event_result, Hc. destruct event; reflexivity.
Qed.

Lemma readings_below_stage_are_skipped_witness :
  Hourly.crossed_idx (Hourly.hourly below_stage) = None
  /\ fst (process_event initial_state (mkDate 2020 3 2) (2130 # 100)
            below_stage []) = Ok (skip initial_state).
Proof.
  apply (readings_below_stage_are_skipped initial_state (mkDate 2020 3 2)
           (2130 # 100) below_stage []).
  intros row [<- | [<- | [<- | []]]]; vm_compute; reflexivity.
Defined.

(** *** Every reading falls in an hour of the frame *)

Lemma maximum_ge_head (xs : list Z) (x : Z) : (x <= Hourly.maximum x xs)%Z.
Proof.
  unfold Hourly.maximum. revert x.
  induction xs as [| y xs IH]; intros x; simpl; [lia |].
  specialize (IH (Z.max x y)). lia.
Qed.

Lemma maximum_ge_in (xs : list Z) (x y : Z) :
  In y xs -> (y <= Hourly.maximum x xs)%Z.
Proof.
  unfold Hourly.maximum. revert x.
  induction xs as [| z xs IH]; intros x Hin; [destruct Hin |].
  simpl. destruct Hin as [-> | Hin].
  - pose proof (maximum_ge_head xs (Z.max x y)) as H.
    unfold Hourly.maximum in H. lia.
  - apply IH. exact Hin.
Qed.

Lemma floor_hour_bounds (t : Z) :
  (Hourly.floor_hour t <= t < Hourly.floor_hour t + 3600)%Z.
Proof.
  unfold Hourly.floor_hour.
  pose proof (Z.mul_div_le t 3600 ltac:(lia)).
  pose proof (Z.mul_succ_div_gt t 3600 ltac:(lia)). lia.
Qed.

Lemma labels_cover (event : event_df) (row : Z * Q) :
  In row event -> In (Hourly.floor_hour (fst row)) (Hourly.labels event).
Proof.
  intros Hin. unfold Hourly.labels.
  pose proof (in_map (fun r => Hourly.floor_hour (fst r)) event row Hin) as Hh.
  simpl in Hh.
  destruct (map (fun r => Hourly.floor_hour (fst r)) event) as [| h hs] eqn:E;
    [destruct Hh |].
  set (lo := Hourly.minimum h hs). set (hi := Hourly.maximum h hs).
  assert (Hlo : (lo <= Hourly.floor_hour (fst row))%Z).
  { destruct Hh as [<- | Hh];
      [apply minimum_le_head | apply minimum_le_in; exact Hh]. }
  assert (Hhi : (Hourly.floor_hour (fst row) <= hi)%Z).
  { destruct Hh as [<- | Hh];
      [apply maximum_ge_head | apply maximum_ge_in; exact Hh]. }
  assert (Hmult : exists a, lo = (3600 * a)%Z).
  { pose proof (minimum_in hs h) as Hm. fold lo in Hm.
    rewrite <- E in Hm. apply in_map_iff in Hm.
    destruct Hm as [r [Hr _]]. exists (fst r / 3600)%Z.
    rewrite <- Hr. reflexivity. }
  destruct Hmult as [a Ha].
  set (k := (fst row / 3600 - a)%Z).
  assert (Hk : Hourly.floor_hour (fst row) = (lo + 3600 * k)%Z).
  { unfold Hourly.floor_hour, k. lia. }
  assert (Hk0 : (0 <= k)%Z) by lia.
  assert (Hkn : (k <= (hi - lo) / 3600)%Z).
  { apply Z.div_le_lower_bound; lia. }
  apply in_map_iff. exists (Z.to_nat k). split.
  - rewrite Z2Nat.id by exact Hk0. symmetry. exact Hk.
  - apply in_seq. lia.
Qed.

(** No reading is lost by the resampling: the hour of every reading is a
    row of the hourly frame, and that row has a mean. *)
Theorem every_reading_has_its_hour (event : event_df) (row : Z * Q) :
  In row event ->
  exists hrow m,
    In hrow (Hourly.hourly event)
    /\ bucket hrow = Hourly.floor_hour (fst row)
    /\ (bucket hrow <= fst row < bucket hrow + 3600)%Z
    /\ value hrow = Some m.
Proof.
  intros Hin. rewrite hourly_rows_from.
  destruct (rows_from_label (hour_mean event) (Hourly.labels event) None
              (Hourly.floor_hour (fst row)) (labels_cover event row Hin))
    as [hrow [Hrow Hb]].
  destruct (rows_from_in _ _ _ _ Hrow) as [_ Hval].
  assert (Hsome : exists m, hour_mean event (bucket hrow) = Some m).
  { unfold hour_mean, Hourly.bucket_values, Hourly.mean.
    destruct (map snd (filter (Hourly.in_bucket (bucket hrow)) event))
      as [| v vs] eqn:E.
    - exfalso.
      assert (Hv : In (snd row)
                     (map snd (filter (Hourly.in_bucket (bucket hrow)) event))).
      { apply in_map. apply filter_In. split; [exact Hin |].
        unfold Hourly.in_bucket. apply Z.eqb_eq. symmetry. exact Hb. }
      rewrite E in Hv. destruct Hv.
    - eexists. reflexivity. }
  destruct Hsome as [m Hm].
  exists hrow, m. split; [exact Hrow |]. split; [exact Hb |].
  split; [rewrite Hb; apply floor_hour_bounds |].
  rewrite Hval. exact Hm.
Qed.

Lemma every_reading_has_its_hour_witness :
  exists hrow m,
    In hrow (Hourly.hourly rising_frame)
    /\ bucket hrow = Hourly.floor_hour (fst (1583073000%Z, 138 # 10))
    /\ (bucket hrow <= fst (1583073000%Z, 138 # 10) < bucket hrow + 3600)%Z
    /\ value hrow = Some m.
Proof.
  apply (every_reading_has_its_hour rising_frame (1583073000%Z, 138 # 10)).
  simpl. right. left. reflexivity.
Defined.

(** ** Requests and features of the loop *)



Section Requests.

Variable requests_get : nat -> string -> result response.
Variable data_frame : json -> result event_df.




End Requests.

(** ** The run as a whole *)

Section Run.

Variable requests_get : nat -> string -> result response.
Variable data_frame : json -> result event_df.
Variable linregress_check : list Q -> list Q -> result unit.


(** When the loop ends with at least one valid event, a single one
    included, [main] prints the tally and calls [linregress] once, on
    the rates and the heights of the kept features in their order; the
    two columns have as many entries as valid events were counted and
    every rate is positive.  When [linregress] accepts the columns,
    [main] then prints the results and shows the plot; when it raises,
    [main] raises the same exception and neither prints the results nor
    shows the plot. *)
Theorem valid_events_are_analysed (table : list csv_row) (df : list crest_row)
  (st : loop_state) (tr1 : list effect) :
  parse_crest_csv table = Ok df ->
  main_loop requests_get data_frame (iterrows df) initial_state
    [Print (TotalEntries (List.length df)); Print FetchingBanner] = (Ok st, tr1) ->
  (0 < valid_event_count st)%Z ->
  (linregress_check (map rate_of_rise_per_hr (results st))
                    (map event_height (results st)) = Ok tt ->
   main requests_get data_frame linregress_check table []
   = (Ok tt,
      tr1 ++ [Print (Tally (valid_event_count st) (skipped_event_count st));
              Linregress (map rate_of_rise_per_hr (results st))
                         (map event_height (results st));
              Print AnalysisResults; ShowPlot]))
  /\ (forall e,
        linregress_check (map rate_of_rise_per_hr (results st))
                         (map event_height (results st)) = Raise e ->
        main requests_get data_frame linregress_check table []
        = (Raise e,
           tr1 ++ [Print (Tally (valid_event_count st) (skipped_event_count st));
                   Linregress (map rate_of_rise_per_hr (results st))
                              (map event_height (results st))]))
  /\ Z.of_nat (List.length (map rate_of_rise_per_hr (results st)))
     = valid_event_count st
  /\ List.length (map event_height (results st))
     = List.length (map rate_of_rise_per_hr (results st))
  /\ Forall (fun x => 0 < x) (map rate_of_rise_per_hr (results st)).
Proof.
  intros Hparse Hrun Hpos.
  destruct (main_loop_outcome requests_get data_frame (iterrows df) initial_state
              [Print (TotalEntries (List.length df)); Print FetchingBanner])
    as [st' [tr' [Hrun' [_ [Hrates [Hcnt _]]]]]].
  rewrite Hrun in Hrun'. injection Hrun' as <- <-.
  assert (Hagree : counts_agree st) by (apply Hcnt; reflexivity).
  assert (Hall : positive_rates st) by (apply Hrates; constructor).
  unfold counts_agree in Hagree. unfold positive_rates in Hall.
  assert (Hmain : forall outcome,
             linregress_check (map rate_of_rise_per_hr (results st))
                              (map event_height (results st)) = outcome ->
             main requests_get data_frame linregress_check table []
             = match outcome with
               | Ok _ =>
                   (Ok tt,
                    tr1 ++ [Print (Tally (valid_event_count st)
                                         (skipped_event_count st));
                            Linregress (map rate_of_rise_per_hr (results st))
                                       (map event_height (results st));
                            Print AnalysisResults; ShowPlot])
               | Raise e =>
                   (Raise e,
                    tr1 ++ [Print (Tally (valid_event_count st)
                                         (skipped_event_count st));
                            Linregress (map rate_of_rise_per_hr (results st))
                                       (map event_height (results st))])
               end).
  { intros outcome Hcheck.
    unfold main, io_bind, lift. rewrite Hparse. simpl. rewrite Hrun.
    unfold report, io_bind, lift, emit.
    destruct (results st) as [| f fs] eqn:Hres;
      [simpl in Hagree; lia |].
    rewrite Hcheck. destruct outcome as [[] | e];
      rewrite <- !app_assoc; reflexivity. }
  split; [intros Hok; exact (Hmain (Ok tt) Hok) |].
  split; [intros e He; exact (Hmain (Raise e) He) |].
  split; [rewrite length_map; lia |].
  split; [rewrite !length_map; reflexivity |].
  apply Forall_map. exact Hall.
Qed.

End Run.


Lemma valid_events_are_analysed_witness :
  exists st tr1,
    (Service.rejects_identical_x (map rate_of_rise_per_hr (results st))
                                 (map event_height (results st)) = Ok tt ->
     main Service.failing_once Service.data_frame Service.rejects_identical_x
       table_2020 []
     = (Ok tt,
        tr1 ++ [Print (Tally (valid_event_count st) (skipped_event_count st));
                Linregress (map rate_of_rise_per_hr (results st))
                           (map event_height (results st));
                Print AnalysisResults; ShowPlot]))
    /\ (forall e,
          Service.rejects_identical_x (map rate_of_rise_per_hr (results st))
                                      (map event_height (results st)) = Raise e ->
          main Service.failing_once Service.data_frame
            Service.rejects_identical_x table_2020 []
          = (Raise e,
             tr1 ++ [Print (Tally (valid_event_count st) (skipped_event_count st));
                     Linregress (map rate_of_rise_per_hr (results st))
                                (map event_height (results st))]))
    /\ Z.of_nat (List.length (map rate_of_rise_per_hr (results st)))
       = valid_event_count st
    /\ List.length (map event_height (results st))
       = List.length (map rate_of_rise_per_hr (results st))
    /\ Forall (fun x => 0 < x) (map rate_of_rise_per_hr (results st)).
Proof.
  eexists. eexists.
  eapply (valid_events_are_analysed Service.failing_once Service.data_frame
            Service.rejects_identical_x table_2020 frame_2020).
  - reflexivity.
  - vm_compute. reflexivity.
  - vm_compute. reflexivity.
Defined.

(** Two crests with the same rate of rise: a release of scipy that
    rejects identical abscissas makes [main] raise after the tally, and
    no plot is shown; with one valid event the analysis is done. *)
Example identical_rates_abort_the_analysis :
  exists tr,
    main (Service.always (mkResponse 200 (Some Service.rising)))
      Service.data_frame Service.rejects_identical_x table_2020 []
    = (Raise ValueError, tr)
    /\ existsb (fun e => match e with ShowPlot => true | _ => false end) tr
       = false.
Proof. eexists. split; [vm_compute; reflexivity | reflexivity]. Qed.

Example single_event_is_analysed :
  exists tr,
    main Service.failing_once Service.data_frame Service.rejects_identical_x
      table_2020 []
    = (Ok tt, tr)
    /\ existsb (fun e => match e with ShowPlot => true | _ => false end) tr
       = true.
Proof. eexists. split; [vm_compute; reflexivity | reflexivity]. Qed.

(** ** Signs and other text before the number *)

Lemma search_number_skips (pre s : string) :
  Regex.all_chars (fun c => negb (Regex.is_num_char c)) pre = true ->
  Regex.search_number (pre ++ s) = Regex.search_number s.
Proof.
  intros Hpre. induction pre as [| c pre IH]; simpl in *; [reflexivity |].
  apply andb_true_iff in Hpre. destruct Hpre as [Hc Hpre].
  apply negb_true_iff in Hc. rewrite Hc. exact (IH Hpre).
Qed.

(** ASCII text without digit or dot in front of the number does not
    change the height extracted; in particular a minus sign is dropped,
    so that a height written as negative is read as positive. *)
Theorem extract_height_ignores_prefix (pre s : string) :
  is_ascii_text (pre ++ s) = true ->
  Regex.all_chars (fun c => negb (Regex.is_num_char c)) pre = true ->
  extract_height (Some (pre ++ s)%string) = extract_height (Some s).
Proof.
  intros _ Hpre. unfold extract_height.
  rewrite (search_number_skips pre s Hpre). reflexivity.
Qed.

Lemma extract_height_ignores_prefix_witness :
  extract_height (Some ("-" ++ "21.30 ft")%string)
  = extract_height (Some "21.30 ft"%string).
Proof.
  apply (extract_height_ignores_prefix "-" "21.30 ft"); reflexivity.
Defined.

(** ** The log of one crest *)

Section Log.

Variable requests_get : nat -> string -> result response.
Variable data_frame : json -> result event_df.


End Log.


(** ** The range of pandas timestamps *)

Example timestamp_range_days :
  Calendar.to_days (mkDate 1677 9 22) = Calendar.TIMESTAMP_MIN_DAY
  /\ Calendar.to_days (mkDate 2262 4 11) = Calendar.TIMESTAMP_MAX_DAY.
Proof. split; reflexivity. Qed.

Example to_datetime_range :
  to_datetime "01-01-1600" = Raise ValueError
  /\ to_datetime "09-21-1677" = Raise ValueError
  /\ to_datetime "09-22-1677" = Ok (mkDate 1677 9 22)
  /\ to_datetime "04-11-2262" = Ok (mkDate 2262 4 11)
  /\ to_datetime "04-12-2262" = Raise ValueError
  /\ to_datetime "02-29-1900" = Raise ValueError.
Proof. repeat split; reflexivity. Qed.
